(** * mongodb-nats-connector: the configuration options, the supervisor's
      [New] and [Run], the bus client, the health endpoint and the
      command's helpers, embedded in Rocq.

    The embedding follows the Go sources function by function.  A Go
    function over a pointer, [func(t *T) error], that mutates [t] is a function
    [T -> option error * T]: the first component is the returned error
    ([None] is Go's [nil]), the second is [t] after the call. *)

From Stdlib Require Import ZArith Ascii String.
From stdpp Require Import base option list strings gmap pretty.

Local Open Scope string_scope.
Local Open Scope list_scope.

(** ** Go values shared by the packages *)

(** Go's [error] values.  The sentinel errors of the packages are
    constructors of their own, since the code compares them by identity;
    [errorString] is an [errors.New] or a [fmt.Errorf] without [%w]. *)
Inductive error : Type :=
  | ErrDbNameMissing
  | ErrCollNameMissing
  | ErrInvalidCollSizeInBytes
  | ErrInvalidDbAndCollNames
  | ErrClientDisconnected
  | ErrServerClosed
  | errorString (msg : string).

#[global] Instance error_eq_dec : EqDecision error.
Proof. solve_decision. Defined.

(** [err.Error()]. *)
Definition Error (e : error) : string :=
  match e with
  | ErrDbNameMissing => "invalid option: `dbName` is missing"
  | ErrCollNameMissing => "invalid option: `collName` is missing"
  | ErrInvalidCollSizeInBytes =>
      "invalid option: `collSizeInBytes` must be greater than 0"
  | ErrInvalidDbAndCollNames =>
      "invalid option: `dbName` and `tokensDbName` cannot be the same if `collName` and `tokensCollName` are the same"
  | ErrClientDisconnected => "could not reach nats: connection closed"
  | ErrServerClosed => "http: Server closed"
  | errorString msg => msg
  end.

(** [context.Context] values, as far as the code builds them. *)
Inductive Context : Type :=
  | context_Background
  | context_TODO
  | context_WithCancel (parent : Context)
  | signal_NotifyContext (parent : Context)
  | errgroup_WithContext (parent : Context).

#[global] Instance Context_eq_dec : EqDecision Context.
Proof. solve_decision. Defined.

(** [s != EmptyString], the guard of the string options. *)
Definition nonempty (s : string) : bool := negb (bool_decide (s = EmptyString)).

(** The functions of Go's [strings] package that the connector calls.
    They are library code, Unicode aware; the connector only relies on
    their results, so the embedding takes them as an interface. *)
Class GoStrings : Type := {
  ToLower : string -> string;
  ToUpper : string -> string;
  EqualFold : string -> string -> bool
}.

(** The instance for ASCII text, on which Go's functions act letter by
    letter; bytes outside [A-Za-z] are kept. *)
Module ascii_strings.

Definition is_upper (c : ascii) : bool :=
  (65 <=? nat_of_ascii c)%nat && (nat_of_ascii c <=? 90)%nat.

Definition is_lower (c : ascii) : bool :=
  (97 <=? nat_of_ascii c)%nat && (nat_of_ascii c <=? 122)%nat.

Definition lower (c : ascii) : ascii :=
  if is_upper c then ascii_of_nat (nat_of_ascii c + 32) else c.

Definition upper (c : ascii) : ascii :=
  if is_lower c then ascii_of_nat (nat_of_ascii c - 32) else c.

Fixpoint map (f : ascii -> ascii) (s : string) : string :=
  match s with
  | EmptyString => EmptyString
  | String c s' => String (f c) (map f s')
  end.

Definition ToLower (s : string) : string := map lower s.
Definition ToUpper (s : string) : string := map upper s.
Definition EqualFold (s t : string) : bool :=
  bool_decide (ToLower s = ToLower t).

End ascii_strings.

Definition ascii_GoStrings : GoStrings :=
  {| ToLower := ascii_strings.ToLower;
     ToUpper := ascii_strings.ToUpper;
     EqualFold := ascii_strings.EqualFold |}.

(** ** Logging (go.uber.org/zap)

    A logger is the list of the entries written to it, oldest first;
    [zap.NewNop()] starts empty like any other. *)
Module zap.

Inductive Level : Type := DebugLevel | InfoLevel | ErrorLevel.

Record Entry : Type := {
  level : Level;
  msg : string;
  fields : list (string * string)
}.

Definition Logger : Type := list Entry.

Definition NewNop : Logger := [].

Definition Debug (m : string) (fs : list (string * string)) (l : Logger)
  : Logger := (l ++ [{| level := DebugLevel; msg := m; fields := fs |}])%list.

Definition Info (m : string) (fs : list (string * string)) (l : Logger)
  : Logger := (l ++ [{| level := InfoLevel; msg := m; fields := fs |}])%list.

Definition Error (m : string) (fs : list (string * string)) (l : Logger)
  : Logger := (l ++ [{| level := ErrorLevel; msg := m; fields := fs |}])%list.

End zap.

(** ** Package mongo: what the connector asks of the DocDB client *)

Module mongo.

Record CreateCollectionOptions : Type := {
  DbName : string;
  CollName : string;
  Capped : bool;
  SizeInBytes : Z;
  ChangeStreamPreAndPostImages : bool
}.

(** What a change event handler hands to the bus: the handler
    [Run] installs builds these publish options from its arguments. *)
Record PublishRequest : Type := {
  Subj : string;
  MsgId : string;
  Data : string
}.

Record WatchCollectionOptions : Type := {
  WatchedDbName : string;
  WatchedCollName : string;
  ResumeTokensDbName : string;
  ResumeTokensCollName : string;
  ResumeTokensCollCapped : bool;
  StreamName : string;
  ChangeEventHandler : string -> string -> string -> PublishRequest
}.

(** The methods [Run] and [cleanup] call on the client, over the client's
    state [M]. *)
Class Client (M : Type) : Type := {
  CreateCollection : Context -> CreateCollectionOptions -> M -> option error * M;
  Close : M -> option error * M
}.

End mongo.

(** ** Package nats: the bus client *)

Module nats.

Definition defaultName : string := "nats".

(** *** The nats.go library, as far as the client uses it *)

Inductive StorageType : Type := FileStorage | MemoryStorage.

(** [nats.StreamConfig]; the fields the client leaves at their zero value
    are not listed. *)
Record StreamConfig : Type := {
  Name : string;
  Subjects : list string;
  Storage : StorageType
}.

(** A connection handler is the log call its body makes. *)
Definition ConnHandler : Type := string -> zap.Logger -> zap.Logger.
Definition ConnErrHandler : Type := option error -> zap.Logger -> zap.Logger.

(** [nats.Options]: the servers and the three callbacks. *)
Record Options : Type := {
  Servers : list string;
  DisconnectedErrCB : option ConnErrHandler;
  ReconnectedCB : option ConnHandler;
  ClosedCB : option ConnHandler
}.

Definition GetDefaultOptions : Options :=
  {| Servers := []; DisconnectedErrCB := None;
     ReconnectedCB := None; ClosedCB := None |}.

(** [nats.Option], a function on [Options] in the library; the client
    builds these three. *)
Inductive Option : Type :=
  | DisconnectErrHandler (cb : ConnErrHandler)
  | ReconnectHandler (cb : ConnHandler)
  | ClosedHandler (cb : ConnHandler).

(** Calling a [nats.Option] on the options. *)
Definition call_Option (opt : Option) (o : Options) : option error * Options :=
  match opt with
  | DisconnectErrHandler cb =>
      (None, {| Servers := Servers o; DisconnectedErrCB := Some cb;
                ReconnectedCB := ReconnectedCB o; ClosedCB := ClosedCB o |})
  | ReconnectHandler cb =>
      (None, {| Servers := Servers o; DisconnectedErrCB := DisconnectedErrCB o;
                ReconnectedCB := Some cb; ClosedCB := ClosedCB o |})
  | ClosedHandler cb =>
      (None, {| Servers := Servers o; DisconnectedErrCB := DisconnectedErrCB o;
                ReconnectedCB := ReconnectedCB o; ClosedCB := Some cb |})
  end.

(** A JetStream context over the server state [J]: the call the client
    makes, and the log of the stream configurations it was sent. *)
Class JetStreamContext (J : Type) : Type := {
  js_AddStream : StreamConfig -> J -> option error * J
}.

Record JetStream (J : Type) : Type := {
  server_state : J;
  requested : list StreamConfig
}.
Arguments server_state {J} _.
Arguments requested {J} _.

(** [nats.Conn] *)
Record Conn : Type := {
  ConnectedUrlRedacted : string;
  IsClosed : bool
}.

(** *** The client *)

Record AddStreamOptions : Type := { StreamName : string }.

(** [conn] and [js] are [nil] until [NewDefaultClient] has connected. *)
Record DefaultClient (J : Type) : Type := {
  name : string;
  logger : zap.Logger;
  opts : Options;
  conn : option Conn;
  js : option (JetStream J)
}.
Arguments name {J} _.
Arguments logger {J} _.
Arguments opts {J} _.
Arguments conn {J} _.
Arguments js {J} _.

(** The methods [Run] and [cleanup] call on a bus client with state [N]. *)
Class Client (N : Type) : Type := {
  AddStream : Context -> AddStreamOptions -> N -> option error * N;
  Close : N -> option error * N
}.

(** The handlers [NewDefaultClient] registers, in the order of the slice
    literal [extraOpts]. *)
Definition extraOpts : list Option :=
  [ DisconnectErrHandler (fun err l =>
      zap.Error "disconnected from nats"
        [("error", from_option Error EmptyString err)] l);
    DisconnectErrHandler (fun err l =>
      zap.Error "disconnected from nats"
        [("error", from_option Error EmptyString err)] l);
    ReconnectHandler (fun url l =>
      zap.Info "reconnected to nats" [("url", url)] l);
    ClosedHandler (fun _ l => zap.Info "nats connection closed" [] l) ].

(** [for _, extraOpt := range extraOpts { if err := extraOpt(&c.opts) ... }]
    The loop calls the library's options on the connection options one
    after the other; the third component lists the options it has
    called, in order. *)
Fixpoint register_handlers (extra : list Option) (o : Options)
  : option error * Options * list Option :=
  match extra with
  | [] => (None, o, [])
  | extraOpt :: rest =>
      match call_Option extraOpt o with
      | (Some err, o') =>
          (Some (errorString ("failed to register handler: " ++ Error err)%string),
           o', [extraOpt])
      | (None, o') =>
          let '(err, o'', called) := register_handlers rest o' in
          (err, o'', extraOpt :: called)
      end
  end.

Section client.
Context {J : Type} `{!JetStreamContext J}.

(** [type ClientOption func(c *DefaultClient) error] *)
Definition ClientOption : Type := DefaultClient J -> option error * DefaultClient J.

Definition set_opts (o : Options) (c : DefaultClient J) : DefaultClient J :=
  {| name := name c; logger := logger c; opts := o; conn := conn c; js := js c |}.

Definition set_logger (l : zap.Logger) (c : DefaultClient J) : DefaultClient J :=
  {| name := name c; logger := l; opts := opts c; conn := conn c; js := js c |}.

Definition set_js (j : option (JetStream J)) (c : DefaultClient J)
  : DefaultClient J :=
  {| name := name c; logger := logger c; opts := opts c; conn := conn c; js := j |}.

Definition set_conn (cn : option Conn) (c : DefaultClient J) : DefaultClient J :=
  {| name := name c; logger := logger c; opts := opts c; conn := cn; js := js c |}.

(** [WithNatsOptions]: the first failing option ends the loop. *)
Fixpoint call_Options (os : list Option) (o : Options) : option error * Options :=
  match os with
  | [] => (None, o)
  | opt :: rest =>
      match call_Option opt o with
      | (Some err, o') => (Some err, o')
      | (None, o') => call_Options rest o'
      end
  end.

Definition WithNatsOptions (os : list Option) : ClientOption := fun c =>
  let '(err, o) := call_Options os (opts c) in (err, set_opts o c).

(** The argument is [None] for a [nil] logger. *)
Definition WithLogger (l : option zap.Logger) : ClientOption := fun c =>
  (None, match l with Some l => set_logger l c | None => c end).

(** [for _, opt := range opts { opt(c) }]: the errors are dropped. *)
Definition apply_ClientOptions (options : list ClientOption)
    (c : DefaultClient J) : DefaultClient J :=
  foldl (fun c opt => snd (opt c)) c options.

(** [NewDefaultClient], with the options its handler loop has called on
    the connection options.  [Connect] is the library's
    [c.opts.Connect()] followed by [conn.JetStream()]: it gives the
    connection and the JetStream context, or the connection error. *)
Definition NewDefaultClient_calls
    (Connect : Options -> error + Conn * JetStream J)
    (options : list ClientOption) : (error + DefaultClient J) * list Option :=
  let c := apply_ClientOptions options
             {| name := defaultName; logger := zap.NewNop;
                opts := GetDefaultOptions; conn := None; js := None |} in
  match register_handlers extraOpts (opts c) with
  | (Some err, _, called) => (inl err, called)
  | (None, o, called) =>
      let c := set_opts o c in
      match Connect (opts c) with
      | inl err =>
          (inl (errorString ("could not connect to nats: " ++ Error err)%string),
           called)
      | inr (cn, j) =>
          let c := set_js (Some j) (set_conn (Some cn) c) in
          (inr (set_logger
                  (zap.Info "connected to nats"
                     [("url", ConnectedUrlRedacted cn)] (logger c)) c),
           called)
      end
  end.

(** [NewDefaultClient]: the client, or the error. *)
Definition NewDefaultClient
    (Connect : Options -> error + Conn * JetStream J)
    (options : list ClientOption) : error + DefaultClient J :=
  (NewDefaultClient_calls Connect options).1.

Definition DefaultClient_Name (c : DefaultClient J) : string := name c.

(** [DefaultClient.Monitor]; [None] when [conn] is [nil], where Go panics. *)
Definition DefaultClient_Monitor (_ : Context) (c : DefaultClient J) : option (option error) :=
  match conn c with
  | None => None
  | Some cn => Some (if IsClosed cn then Some ErrClientDisconnected else None)
  end.

(** The stream configuration [AddStream] sends. *)
Definition stream_config (o : AddStreamOptions) : StreamConfig :=
  {| Name := StreamName o;
     Subjects := [(StreamName o ++ ".*")%string];
     Storage := FileStorage |}.

(** [DefaultClient.AddStream]; the result is [None] when [js] is [nil],
    where Go panics.  The context argument is ignored, as in the source. *)
Definition DefaultClient_AddStream (_ : Context) (o : AddStreamOptions)
    (c : DefaultClient J) : option (option error * DefaultClient J) :=
  match js c with
  | None => None
  | Some j =>
      let '(err, st) := js_AddStream (stream_config o) (server_state j) in
      let c := set_js (Some {| server_state := st;
                               requested := (requested j ++ [stream_config o])%list |}) c in
      match err with
      | Some err =>
          Some (Some (errorString ("could not add nats stream " ++ StreamName o
                                   ++ ": " ++ Error err)%string), c)
      | None =>
          Some (None, set_logger
                        (zap.Debug "added nats stream"
                           [("streamName", StreamName o)] (logger c)) c)
      end
  end.

End client.

End nats.
(** ** Package server: the health endpoint *)

Module server.

Definition defaultAddr : string := "127.0.0.1:18080".

(** [NamedMonitor], the interface of a monitored component: the two
    clients implement it, and so does the test's [testComponent]. *)
Record NamedMonitor : Type := {
  Name : string;
  Monitor : Context -> option error
}.

Inductive status : Type := UP | DOWN.

#[global] Instance status_eq_dec : EqDecision status.
Proof. solve_decision. Defined.

(** [monitoredComponents] and [healthResponse], the JSON document of the
    endpoint as the test decodes it; [Components] is a Go map. *)
Record monitoredComponents : Type := { Status' : status }.

#[global] Instance monitoredComponents_eq_dec : EqDecision monitoredComponents.
Proof. solve_decision. Defined.

Record healthResponse : Type := {
  Status : status;
  Components : gmap string monitoredComponents
}.

#[global] Instance healthResponse_eq_dec : EqDecision healthResponse.
Proof. solve_decision. Defined.

(** *** net/http, as far as the server uses it *)

Record Request : Type := {
  Method : string;
  Path : string;
  req_Context : Context
}.

Inductive body : Type :=
  | NoBody
  | Text (s : string)
  | JSON (r : healthResponse).

#[global] Instance body_eq_dec : EqDecision body.
Proof. solve_decision. Defined.

Record Response : Type := {
  StatusCode : Z;
  ContentType : string;
  Body : body
}.

(** What serving a request comes to: a response, or a panic. *)
Inductive outcome : Type :=
  | Responds (r : Response)
  | Panics.

Definition HandlerFunc : Type := Request -> outcome.

Definition StatusOK : Z := 200.
Definition StatusNotFound : Z := 404.
Definition StatusInternalServerError : Z := 500.

(** A [ServeMux] with one pattern without a trailing slash: the path has
    to be the pattern, any other path is [http.NotFound]. *)
Definition mux_HandleFunc (pattern : string) (h : HandlerFunc) : HandlerFunc :=
  fun r =>
    if bool_decide (Path r = pattern) then h r
    else Responds {| StatusCode := StatusNotFound;
                     ContentType := "text/plain; charset=utf-8";
                     Body := Text "404 page not found" |}.

Record http_Server : Type := {
  Addr : string;
  Handler : HandlerFunc;
  BaseContext : Context
}.

Record Server : Type := {
  addr : string;
  ctx : Context;
  monitors : list NamedMonitor;
  logger : zap.Logger;
  http : option http_Server
}.

Definition Option : Type := Server -> Server.

Definition WithAddr (addr : string) : Option := fun s =>
  if nonempty addr
  then {| addr := addr; ctx := ctx s; monitors := monitors s;
          logger := logger s; http := http s |}
  else s.

(** The argument is [None] for a [nil] context. *)
Definition WithContext (ctx : option Context) : Option := fun s =>
  match ctx with
  | Some ctx => {| addr := addr s; ctx := ctx; monitors := monitors s;
                   logger := logger s; http := http s |}
  | None => s
  end.

(** The argument is variadic: [None] is the [nil] slice of a call
    without arguments, [Some ms] a slice that is not [nil], the one of
    a call with arguments or a slice passed whole. *)
Definition WithNamedMonitors (monitors : option (list NamedMonitor)) : Option :=
  fun s =>
  match monitors with
  | Some ms => {| addr := addr s; ctx := ctx s; monitors := ms;
                  logger := logger s; http := http s |}
  | None => s
  end.

(** The argument is [None] for a [nil] logger. *)
Definition WithLogger (logger : option zap.Logger) : Option := fun s =>
  match logger with
  | Some l => {| addr := addr s; ctx := ctx s; monitors := monitors s;
                 logger := l; http := http s |}
  | None => s
  end.

(** UP for [nil], DOWN for an error. *)
Definition status_of (res : option error) : status :=
  match res with
  | Some _ => DOWN
  | None => UP
  end.

(** Modelled from the spec: [healthCheck], the handler [New] registers on
    [/healthz], is declared in a file of the package that is not among
    the sources at hand.  Spec 4.4: the handler iterates its registered
    monitors; a component is UP when its monitor returns [nil] and DOWN
    otherwise; the HTTP status is 200 either way and the content type is
    [application/json].  On the top-level status the spec (DOWN iff a
    component is DOWN) and the package's test disagree: [TestServer_Run]
    runs the handler with [cmp_up] and [cmp_down] and requires the
    top-level status UP beside [cmp_down] DOWN.  The test is the
    repository's own statement about the handler, so the model follows
    it: a failing monitor marks its component and leaves the top-level
    status as it is. *)
Definition check (c : Context) (resp : healthResponse) (m : NamedMonitor)
  : healthResponse :=
  {| Status := Status resp;
     Components := <[Name m := {| Status' := status_of (Monitor m c) |}]>
                     (Components resp) |}.

(** Modelled from the spec: see [check]; the handler proper, whose
    response starts with the top-level status UP and no component. *)
Definition healthCheck (monitors : list NamedMonitor) : HandlerFunc := fun r =>
  Responds {| StatusCode := StatusOK;
              ContentType := "application/json";
              Body := JSON (foldl (check (req_Context r))
                              {| Status := UP; Components := ∅ |} monitors) |}.

(** Modelled from the spec: [recoverer], the middleware [New] wraps the
    mux in, is not among the sources either.  Spec 4.4: a panic in the
    handler is recovered and returns 500 with no payload. *)
Definition recoverer (h : HandlerFunc) : HandlerFunc := fun r =>
  match h r with
  | Responds resp => Responds resp
  | Panics => Responds {| StatusCode := StatusInternalServerError;
                          ContentType := EmptyString;
                          Body := NoBody |}
  end.

(** [New] *)
Definition New (opts : list Option) : Server :=
  let s := foldl (fun s opt => opt s)
             {| addr := defaultAddr; ctx := context_Background;
                monitors := []; logger := zap.NewNop; http := None |} opts in
  {| addr := addr s; ctx := ctx s; monitors := monitors s; logger := logger s;
     http := Some {| Addr := addr s;
                     Handler := recoverer
                                  (mux_HandleFunc "/healthz"
                                     (healthCheck (monitors s)));
                     BaseContext := ctx s |} |}.

(** An HTTP request reaching the server: the handler runs on a request
    whose context is the server's base context.  [None] before [New] has
    set [http]. *)
Definition serve (s : Server) (method path : string) : option outcome :=
  match http s with
  | Some h => Some (Handler h {| Method := method; Path := path;
                                 req_Context := BaseContext h |})
  | None => None
  end.

(** *** The package's test, [TestServer_Run] *)

(** [testComponent{name, err}] *)
Definition testComponent (name : string) (err : option error) : NamedMonitor :=
  {| Name := name; Monitor := fun _ => err |}.

Definition cmpUp : NamedMonitor := testComponent "cmp_up" None.
Definition cmpDown : NamedMonitor :=
  testComponent "cmp_down" (Some (errorString "not reachable")).

(** The body [TestServer_Run] requires of [GET /healthz]. *)
Definition TestServer_Run_want : healthResponse :=
  {| Status := UP;
     Components := <["cmp_up" := {| Status' := UP |}]>
                   (<["cmp_down" := {| Status' := DOWN |}]> ∅) |}.

(** The three assertions of [TestServer_Run] on the response. *)
Definition TestServer_Run_asserts (res : Response) : bool :=
  bool_decide (StatusCode res = StatusOK)
  && bool_decide (ContentType res = "application/json")
  && bool_decide (Body res = JSON TestServer_Run_want).

End server.

(** ** Package connector: options *)

Module connector.

(** [slog.Level], the four levels the connector sets. *)
Inductive Level : Type := DebugLevel | InfoLevel | WarnLevel | ErrorLevel.

Definition defaultLogLevel : Level := InfoLevel.
Definition defaultChangeStreamPreAndPostImages : bool := false.
Definition defaultTokensDbName : string := "resume-tokens".
Definition defaultTokensCollCapped : bool := false.
Definition defaultTokensCollSizeInBytes : Z := 0.

Record collection : Type := {
  dbName : string;
  collName : string;
  changeStreamPreAndPostImages : bool;
  tokensDbName : string;
  tokensCollName : string;
  tokensCollCapped : bool;
  tokensCollSizeInBytes : Z;
  streamName : string
}.

(** [stop] is the cancel function of the signal context; it is [nil]
    until [New] installs it. *)
Record Options : Type := {
  logLevel : Level;
  mongoUri : string;
  natsUrl : string;
  ctx : Context;
  stop : option Context;
  serverAddr : string;
  collections : list collection
}.

Definition getDefaultOptions : Options :=
  {| logLevel := defaultLogLevel;
     mongoUri := EmptyString;
     natsUrl := EmptyString;
     ctx := context_Background;
     stop := None;
     serverAddr := EmptyString;
     collections := [] |}.

(** [type Option func(o *Options) error] *)
Definition Option : Type := Options -> option error * Options.

(** [type CollectionOption func(c *collection) error] *)
Definition CollectionOption : Type := collection -> option error * collection.

(** Field assignments [o.f = v]. *)
Definition set_logLevel (v : Level) (o : Options) : Options :=
  {| logLevel := v; mongoUri := mongoUri o; natsUrl := natsUrl o;
     ctx := ctx o; stop := stop o; serverAddr := serverAddr o;
     collections := collections o |}.

Definition set_mongoUri (v : string) (o : Options) : Options :=
  {| logLevel := logLevel o; mongoUri := v; natsUrl := natsUrl o;
     ctx := ctx o; stop := stop o; serverAddr := serverAddr o;
     collections := collections o |}.

Definition set_natsUrl (v : string) (o : Options) : Options :=
  {| logLevel := logLevel o; mongoUri := mongoUri o; natsUrl := v;
     ctx := ctx o; stop := stop o; serverAddr := serverAddr o;
     collections := collections o |}.

Definition set_ctx (v : Context) (o : Options) : Options :=
  {| logLevel := logLevel o; mongoUri := mongoUri o; natsUrl := natsUrl o;
     ctx := v; stop := stop o; serverAddr := serverAddr o;
     collections := collections o |}.

Definition set_stop (v : option Context) (o : Options) : Options :=
  {| logLevel := logLevel o; mongoUri := mongoUri o; natsUrl := natsUrl o;
     ctx := ctx o; stop := v; serverAddr := serverAddr o;
     collections := collections o |}.

Definition set_serverAddr (v : string) (o : Options) : Options :=
  {| logLevel := logLevel o; mongoUri := mongoUri o; natsUrl := natsUrl o;
     ctx := ctx o; stop := stop o; serverAddr := v;
     collections := collections o |}.

Definition set_collections (v : list collection) (o : Options) : Options :=
  {| logLevel := logLevel o; mongoUri := mongoUri o; natsUrl := natsUrl o;
     ctx := ctx o; stop := stop o; serverAddr := serverAddr o;
     collections := v |}.

Definition set_changeStreamPreAndPostImages (v : bool) (c : collection)
  : collection :=
  {| dbName := dbName c; collName := collName c;
     changeStreamPreAndPostImages := v;
     tokensDbName := tokensDbName c; tokensCollName := tokensCollName c;
     tokensCollCapped := tokensCollCapped c;
     tokensCollSizeInBytes := tokensCollSizeInBytes c;
     streamName := streamName c |}.

Definition set_tokensDbName (v : string) (c : collection) : collection :=
  {| dbName := dbName c; collName := collName c;
     changeStreamPreAndPostImages := changeStreamPreAndPostImages c;
     tokensDbName := v; tokensCollName := tokensCollName c;
     tokensCollCapped := tokensCollCapped c;
     tokensCollSizeInBytes := tokensCollSizeInBytes c;
     streamName := streamName c |}.

Definition set_tokensCollName (v : string) (c : collection) : collection :=
  {| dbName := dbName c; collName := collName c;
     changeStreamPreAndPostImages := changeStreamPreAndPostImages c;
     tokensDbName := tokensDbName c; tokensCollName := v;
     tokensCollCapped := tokensCollCapped c;
     tokensCollSizeInBytes := tokensCollSizeInBytes c;
     streamName := streamName c |}.

Definition set_tokensCollCapped (v : bool) (c : collection) : collection :=
  {| dbName := dbName c; collName := collName c;
     changeStreamPreAndPostImages := changeStreamPreAndPostImages c;
     tokensDbName := tokensDbName c; tokensCollName := tokensCollName c;
     tokensCollCapped := v;
     tokensCollSizeInBytes := tokensCollSizeInBytes c;
     streamName := streamName c |}.

Definition set_tokensCollSizeInBytes (v : Z) (c : collection) : collection :=
  {| dbName := dbName c; collName := collName c;
     changeStreamPreAndPostImages := changeStreamPreAndPostImages c;
     tokensDbName := tokensDbName c; tokensCollName := tokensCollName c;
     tokensCollCapped := tokensCollCapped c;
     tokensCollSizeInBytes := v;
     streamName := streamName c |}.

Definition set_streamName (v : string) (c : collection) : collection :=
  {| dbName := dbName c; collName := collName c;
     changeStreamPreAndPostImages := changeStreamPreAndPostImages c;
     tokensDbName := tokensDbName c; tokensCollName := tokensCollName c;
     tokensCollCapped := tokensCollCapped c;
     tokensCollSizeInBytes := tokensCollSizeInBytes c;
     streamName := v |}.

Section options.
Context `{GoStrings}.

(** The [switch] has no [default]: an unknown level falls through. *)
Definition WithLogLevel (logLevel : string) : Option := fun o =>
  let l := ToLower logLevel in
  let o :=
    if bool_decide (l = "debug") then set_logLevel DebugLevel o
    else if bool_decide (l = "warn") then set_logLevel WarnLevel o
    else if bool_decide (l = "error") then set_logLevel ErrorLevel o
    else if bool_decide (l = "info") then set_logLevel InfoLevel o
    else o in
  (None, o).

Definition WithMongoUri (mongoUri : string) : Option := fun o =>
  let o := if nonempty mongoUri then set_mongoUri mongoUri o else o in
  (None, o).

Definition WithNatsUrl (natsUrl : string) : Option := fun o =>
  let o := if nonempty natsUrl then set_natsUrl natsUrl o else o in
  (None, o).

(** The argument is [None] for a [nil] context. *)
Definition WithContext (ctx : option Context) : Option := fun o =>
  let o := match ctx with Some c => set_ctx c o | None => o end in
  (None, o).

Definition WithServerAddr (serverAddr : string) : Option := fun o =>
  let o := if nonempty serverAddr then set_serverAddr serverAddr o else o in
  (None, o).

Definition WithChangeStreamPreAndPostImages : CollectionOption := fun c =>
  (None, set_changeStreamPreAndPostImages true c).

Definition WithTokensDbName (tokensDbName : string) : CollectionOption :=
  fun c =>
  let c := if nonempty tokensDbName then set_tokensDbName tokensDbName c
           else c in
  (None, c).

Definition WithTokensCollName (tokensCollName : string) : CollectionOption :=
  fun c =>
  let c := if nonempty tokensCollName
           then set_tokensCollName tokensCollName c else c in
  (None, c).

Definition WithTokensCollCapped (collSizeInBytes : Z) : CollectionOption :=
  fun c =>
  if (collSizeInBytes <=? 0)%Z then (Some ErrInvalidCollSizeInBytes, c)
  else (None, set_tokensCollSizeInBytes collSizeInBytes
                (set_tokensCollCapped true c)).

Definition WithStreamName (streamName : string) : CollectionOption :=
  fun c =>
  let c := if nonempty streamName then set_streamName streamName c else c in
  (None, c).

(** [for _, opt := range opts { if err := opt(coll); err != nil
    { return err } }]: the options run in order on the same
    collection, and the first error leaves the loop. *)
Fixpoint apply_opts (opts : list CollectionOption) (coll : collection)
  : option error * collection :=
  match opts with
  | [] => (None, coll)
  | opt :: rest =>
      match opt coll with
      | (Some err, coll') => (Some err, coll')
      | (None, coll') => apply_opts rest coll'
      end
  end.

(** The collection [WithCollection] allocates before the options run. *)
Definition new_collection (dbName collName : string) : collection :=
  {| dbName := dbName;
     collName := collName;
     changeStreamPreAndPostImages := defaultChangeStreamPreAndPostImages;
     tokensDbName := defaultTokensDbName;
     tokensCollName := collName;
     tokensCollCapped := defaultTokensCollCapped;
     tokensCollSizeInBytes := defaultTokensCollSizeInBytes;
     streamName := ToUpper collName |}.

Definition WithCollection (dbName collName : string)
    (opts : list CollectionOption) : Option := fun o =>
  if bool_decide (dbName = EmptyString) then (Some ErrDbNameMissing, o)
  else if bool_decide (collName = EmptyString) then (Some ErrCollNameMissing, o)
  else
    match apply_opts opts (new_collection dbName collName) with
    | (Some err, _) => (Some err, o)
    | (None, coll) =>
        if EqualFold (connector.dbName coll) (tokensDbName coll)
           && EqualFold (connector.collName coll) (tokensCollName coll)
        then (Some ErrInvalidDbAndCollNames, o)
        else (None, set_collections (collections o ++ [coll]) o)
    end.

(** The collection options the package can build: [collection] is not
    exported, so a caller has no other way to make one. *)
Inductive collection_option : CollectionOption -> Prop :=
  | co_images : collection_option WithChangeStreamPreAndPostImages
  | co_tokensDbName s : collection_option (WithTokensDbName s)
  | co_tokensCollName s : collection_option (WithTokensCollName s)
  | co_tokensCollCapped n : collection_option (WithTokensCollCapped n)
  | co_streamName s : collection_option (WithStreamName s).

End options.

(** *** The supervisor: [Run] and [cleanup] *)

(** The Connector; its two clients are pointers to shared objects and
    live in the [state] below. *)
Record Connector : Type := {
  options : Options;
  server : server.Server
}.

(** The goroutines [Run] hands to the errgroup. *)
Inductive Task : Type :=
  | WatchCollection (groupCtx : Context) (opts : mongo.WatchCollectionOptions)
  | server_Run
  | server_Close (groupCtx : Context).

(** What [Run] does to the world, in order: the calls on the clients
    with what they returned, the goroutines started, the wait, the log
    lines and the call of [stop]. *)
Inductive Event : Type :=
  | EvCreateCollection (opts : mongo.CreateCollectionOptions) (res : option error)
  | EvAddStream (opts : nats.AddStreamOptions) (res : option error)
  | EvGo (t : Task)
  | EvWait (res : option error)
  | EvCloseMongo (res : option error)
  | EvCloseNats (res : option error)
  | EvLogError (msg : string) (err : error)
  | EvStop (cancel : option Context).

Definition spawned (tr : list Event) : list Task :=
  omap (fun e => match e with EvGo t => Some t | _ => None end) tr.

Definition createWatchedCollOpts (coll : collection)
  : mongo.CreateCollectionOptions :=
  {| mongo.DbName := dbName coll;
     mongo.CollName := collName coll;
     mongo.Capped := false;
     mongo.SizeInBytes := 0;
     mongo.ChangeStreamPreAndPostImages := changeStreamPreAndPostImages coll |}.

Definition createResumeTokensCollOpts (coll : collection)
  : mongo.CreateCollectionOptions :=
  {| mongo.DbName := tokensDbName coll;
     mongo.CollName := tokensCollName coll;
     mongo.Capped := tokensCollCapped coll;
     mongo.SizeInBytes := tokensCollSizeInBytes coll;
     mongo.ChangeStreamPreAndPostImages := false |}.

Definition addStreamOpts (coll : collection) : nats.AddStreamOptions :=
  {| nats.StreamName := streamName coll |}.

Definition watchCollOpts (coll : collection) : mongo.WatchCollectionOptions :=
  {| mongo.WatchedDbName := dbName coll;
     mongo.WatchedCollName := collName coll;
     mongo.ResumeTokensDbName := tokensDbName coll;
     mongo.ResumeTokensCollName := tokensCollName coll;
     mongo.ResumeTokensCollCapped := tokensCollCapped coll;
     mongo.StreamName := streamName coll;
     mongo.ChangeEventHandler := fun subj msgId data =>
       {| mongo.Subj := subj; mongo.MsgId := msgId; mongo.Data := data |} |}.

Section run.
Context {M N : Type} `{!mongo.Client M} `{!nats.Client N}.

(** The goroutines run beside [Run] and share the clients with it:
    [running ts m n] is what the started tasks [ts] have done to the
    clients by the time of [Run]'s next call, and [group_Wait ts m n] is
    [group.Wait()], the first error of the tasks (or [nil]) and the
    clients once all tasks have returned. *)
Variable running : list Task -> M -> N -> M * N.
Variable group_Wait : list Task -> M -> N -> option error * (M * N).

Record state : Type := {
  mongoClient : M;
  natsClient : N;
  trace : list Event
}.

Definition prog (A : Type) : Type := state -> A * state.

Definition emit (e : Event) : prog unit := fun s =>
  (tt, {| mongoClient := mongoClient s; natsClient := natsClient s;
          trace := trace s ++ [e] |}).

(** The effect of the running goroutines before a call of [Run]. *)
Definition yield : prog unit := fun s =>
  let '(m, n) := running (spawned (trace s)) (mongoClient s) (natsClient s) in
  (tt, {| mongoClient := m; natsClient := n; trace := trace s |}).

Definition mongoClient_CreateCollection (c : Context)
    (opts : mongo.CreateCollectionOptions) : prog (option error) := fun s =>
  let '(_, s) := yield s in
  let '(err, m) := mongo.CreateCollection c opts (mongoClient s) in
  (err, {| mongoClient := m; natsClient := natsClient s;
           trace := trace s ++ [EvCreateCollection opts err] |}).

Definition natsClient_AddStream (c : Context) (opts : nats.AddStreamOptions)
  : prog (option error) := fun s =>
  let '(_, s) := yield s in
  let '(err, n) := nats.AddStream c opts (natsClient s) in
  (err, {| mongoClient := mongoClient s; natsClient := n;
           trace := trace s ++ [EvAddStream opts err] |}).

Definition mongoClient_Close : prog (option error) := fun s =>
  let '(_, s) := yield s in
  let '(err, m) := mongo.Close (mongoClient s) in
  (err, {| mongoClient := m; natsClient := natsClient s;
           trace := trace s ++ [EvCloseMongo err] |}).

Definition natsClient_Close : prog (option error) := fun s =>
  let '(_, s) := yield s in
  let '(err, n) := nats.Close (natsClient s) in
  (err, {| mongoClient := mongoClient s; natsClient := n;
           trace := trace s ++ [EvCloseNats err] |}).

(** [if err := call; err != nil { return err }], then the rest. *)
Definition or_return (call rest : prog (option error)) : prog (option error) :=
  fun s =>
    match call s with
    | (Some err, s') => (Some err, s')
    | (None, s') => rest s'
    end.

(** The loop of [Run] over the configured collections. *)
Fixpoint Run_collections (groupCtx : Context) (colls : list collection)
  : prog (option error) :=
  match colls with
  | [] => fun s => (None, s)
  | coll :: rest =>
      or_return
        (mongoClient_CreateCollection groupCtx (createWatchedCollOpts coll))
        (or_return
           (mongoClient_CreateCollection groupCtx
              (createResumeTokensCollOpts coll))
           (or_return
              (natsClient_AddStream groupCtx (addStreamOpts coll))
              (fun s =>
                 let '(_, s) :=
                   emit (EvGo (WatchCollection groupCtx (watchCollOpts coll))) s in
                 Run_collections groupCtx rest s)))
  end.

(** [group.Wait()] *)
Definition group_wait : prog (option error) := fun s =>
  let '(err, (m, n)) :=
    group_Wait (spawned (trace s)) (mongoClient s) (natsClient s) in
  (err, {| mongoClient := m; natsClient := n;
           trace := trace s ++ [EvWait err] |}).

(** The body of [Run], without the deferred [cleanup]. *)
Definition Run_body (c : Connector) : prog (option error) :=
  let groupCtx := errgroup_WithContext (ctx (options c)) in
  or_return
    (Run_collections groupCtx (collections (options c)))
    (fun s =>
       let '(_, s) := emit (EvGo server_Run) s in
       let '(_, s) := emit (EvGo (server_Close groupCtx)) s in
       group_wait s).

(** [closeClient]: the error of [Close] is logged and goes no further. *)
Definition closeClient (close : prog (option error)) : prog unit := fun s =>
  match close s with
  | (Some err, s') => emit (EvLogError "could not close client" err) s'
  | (None, s') => (tt, s')
  end.

Definition cleanup (c : Connector) : prog unit := fun s =>
  let '(_, s) := closeClient mongoClient_Close s in
  let '(_, s) := closeClient natsClient_Close s in
  emit (EvStop (stop (options c))) s.

(** [Run]: [defer c.cleanup()] runs after the body has fixed the result;
    the result is not a named one, so [cleanup] cannot change it. *)
Definition Run (c : Connector) : prog (option error) := fun s =>
  let '(err, s) := Run_body c s in
  let '(_, s) := cleanup c s in
  (err, s).

End run.

Arguments state : clear implicits.
Arguments mongoClient {M N} _.
Arguments natsClient {M N} _.
Arguments trace {M N} _.

End connector.
(** ** The test doubles of the connector's tests, and a bus for the
       scenarios *)

Module mockMongoClient.

Record t : Type := {
  closed : bool;
  name : string;
  monitorErr : option error;
  createCollectionOpts : list mongo.CreateCollectionOptions;
  createCollectionErr : option error;
  watchCollectionOpts : list mongo.WatchCollectionOptions;
  watchCollectionErr : option error
}.

Definition Close (m : t) : option error * t :=
  (None, {| closed := true; name := name m; monitorErr := monitorErr m;
            createCollectionOpts := createCollectionOpts m;
            createCollectionErr := createCollectionErr m;
            watchCollectionOpts := watchCollectionOpts m;
            watchCollectionErr := watchCollectionErr m |}).

Definition CreateCollection (_ : Context) (opts : mongo.CreateCollectionOptions)
    (m : t) : option error * t :=
  match createCollectionErr m with
  | Some err => (Some err, m)
  | None =>
      (None, {| closed := closed m; name := name m; monitorErr := monitorErr m;
                createCollectionOpts := createCollectionOpts m ++ [opts];
                createCollectionErr := createCollectionErr m;
                watchCollectionOpts := watchCollectionOpts m;
                watchCollectionErr := watchCollectionErr m |})
  end.

(** [&mockMongoClient{createCollectionErr: err}] *)
Definition new (err : option error) : t :=
  {| closed := false; name := EmptyString; monitorErr := None;
     createCollectionOpts := []; createCollectionErr := err;
     watchCollectionOpts := []; watchCollectionErr := None |}.

#[global] Instance client : mongo.Client t :=
  {| mongo.CreateCollection := CreateCollection; mongo.Close := Close |}.

End mockMongoClient.

Module mockNatsClient.

Record t : Type := {
  closed : bool;
  name : string;
  monitorErr : option error;
  addStreamOpts : list nats.AddStreamOptions;
  addStreamErr : option error
}.

Definition Close (m : t) : option error * t :=
  (None, {| closed := true; name := name m; monitorErr := monitorErr m;
            addStreamOpts := addStreamOpts m; addStreamErr := addStreamErr m |}).

Definition AddStream (_ : Context) (opts : nats.AddStreamOptions) (m : t)
  : option error * t :=
  match addStreamErr m with
  | Some err => (Some err, m)
  | None =>
      (None, {| closed := closed m; name := name m; monitorErr := monitorErr m;
                addStreamOpts := addStreamOpts m ++ [opts];
                addStreamErr := addStreamErr m |})
  end.

(** [&mockNatsClient{addStreamErr: err}] *)
Definition new (err : option error) : t :=
  {| closed := false; name := EmptyString; monitorErr := None;
     addStreamOpts := []; addStreamErr := err |}.

#[global] Instance client : nats.Client t :=
  {| nats.AddStream := AddStream; nats.Close := Close |}.

End mockNatsClient.

(** A bus that refuses a stream name with a dot in it, as JetStream does
    (the dot separates the tokens of a subject), and whose [Close] fails.
    Its state is the list of the streams it holds. *)
Module dottedBus.

Fixpoint has_dot (s : string) : bool :=
  match s with
  | EmptyString => false
  | String c s' => bool_decide (c = "."%char) || has_dot s'
  end.

Definition ErrInvalidStreamName : error := errorString "nats: invalid stream name".
Definition ErrConnectionClosed : error := errorString "nats: connection closed".

Definition AddStream (_ : Context) (opts : nats.AddStreamOptions)
    (streams : list string) : option error * list string :=
  if has_dot (nats.StreamName opts) then (Some ErrInvalidStreamName, streams)
  else (None, (streams ++ [nats.StreamName opts])%list).

Definition Close (streams : list string) : option error * list string :=
  (Some ErrConnectionClosed, streams).

Definition client : nats.Client (list string) :=
  {| nats.AddStream := AddStream; nats.Close := Close |}.

(** The same bus behind the JetStream context of [nats.DefaultClient]. *)
Definition js_AddStream (cfg : nats.StreamConfig) (streams : list string)
  : option error * list string :=
  if has_dot (nats.Name cfg) then (Some ErrInvalidStreamName, streams)
  else (None, (streams ++ [nats.Name cfg])%list).

Definition jetstream : nats.JetStreamContext (list string) :=
  {| nats.js_AddStream := js_AddStream |}.

(** [c.opts.Connect()] and [conn.JetStream()] against this bus. *)
Definition Connect (o : nats.Options)
  : error + nats.Conn * nats.JetStream (list string) :=
  inr ({| nats.ConnectedUrlRedacted := "nats://127.0.0.1:4222";
          nats.IsClosed := false |},
       {| nats.server_state := []; nats.requested := [] |}).

End dottedBus.

(** The scenarios below run [Run] with goroutines that leave the clients
    alone and a group that ends with the server closed. *)
Module scenario.

Definition running {M N : Type} (_ : list connector.Task) (m : M) (n : N)
  : M * N := (m, n).

Definition group_Wait {M N : Type} (_ : list connector.Task) (m : M) (n : N)
  : option error * (M * N) := (Some ErrServerClosed, (m, n)).

(** The option list of [TestConnector_Run]. *)
Definition TestConnector_Run_options : connector.Options :=
  snd (connector.WithCollection (H := ascii_GoStrings) "connector-db" "coll1"
         [ connector.WithChangeStreamPreAndPostImages;
           connector.WithTokensDbName "tokens-db";
           connector.WithTokensCollName "coll1-tokens";
           connector.WithTokensCollCapped 2048;
           connector.WithStreamName "coll1-stream" ]
         (snd (connector.WithContext
                 (Some (context_WithCancel context_Background))
                 connector.getDefaultOptions))).

(** The part of [New] that follows the options: the signal context and
    its [stop], and the server with the connector's address and context
    (the monitors of the server, the two clients, are left out). *)
Definition connector_of (o : connector.Options) : connector.Connector :=
  let c := signal_NotifyContext (connector.ctx o) in
  let o := connector.set_stop (Some c) (connector.set_ctx c o) in
  {| connector.options := o;
     connector.server :=
       server.New [ server.WithAddr (connector.serverAddr o);
                    server.WithContext (Some c) ] |}.


(** [Run] with the mock DocDB client and the bus that refuses dots. *)
Definition dotted_run (c : connector.Connector)
  : option error * connector.state mockMongoClient.t (list string) :=
  @connector.Run _ _ mockMongoClient.client dottedBus.client
    running group_Wait c
    {| connector.mongoClient := mockMongoClient.new None;
       connector.natsClient := [];
       connector.trace := [] |}.

(** [Run] with the two mocks of the tests. *)
Definition mock_run (createCollectionErr addStreamErr : option error)
    (c : connector.Connector)
  : option error * connector.state mockMongoClient.t mockNatsClient.t :=
  @connector.Run _ _ mockMongoClient.client mockNatsClient.client
    running group_Wait c
    {| connector.mongoClient := mockMongoClient.new createCollectionErr;
       connector.natsClient := mockNatsClient.new addStreamErr;
       connector.trace := [] |}.

End scenario.

(** ** The shapes of the traces of [Run] *)

Module run_trace.
Import connector.

(** The events of a collection whose bootstrap went through: the three
    calls, each returning [nil], then its watcher is started. *)
Definition bootstrapped (groupCtx : Context) (coll : collection) : list Event :=
  [ EvCreateCollection (createWatchedCollOpts coll) None;
    EvCreateCollection (createResumeTokensCollOpts coll) None;
    EvAddStream (addStreamOpts coll) None;
    EvGo (WatchCollection groupCtx (watchCollOpts coll)) ].

(** The events of a collection one of whose three calls returned [e]:
    the calls before it returned [nil], nothing follows it. *)
Inductive bootstrap_failed (coll : collection) (e : error) : list Event -> Prop :=
  | failed_watched :
      bootstrap_failed coll e
        [ EvCreateCollection (createWatchedCollOpts coll) (Some e) ]
  | failed_tokens :
      bootstrap_failed coll e
        [ EvCreateCollection (createWatchedCollOpts coll) None;
          EvCreateCollection (createResumeTokensCollOpts coll) (Some e) ]
  | failed_stream :
      bootstrap_failed coll e
        [ EvCreateCollection (createWatchedCollOpts coll) None;
          EvCreateCollection (createResumeTokensCollOpts coll) None;
          EvAddStream (addStreamOpts coll) (Some e) ].

(** The errors the bootstrap calls of a trace returned. *)
Definition ddl_errors (tr : list Event) : list error :=
  omap (fun ev => match ev with
                  | EvCreateCollection _ (Some e) | EvAddStream _ (Some e) => Some e
                  | _ => None
                  end) tr.

(** The watchers started in a trace. *)
Definition watchers (tr : list Event) : list mongo.WatchCollectionOptions :=
  omap (fun ev => match ev with
                  | EvGo (WatchCollection _ o) => Some o
                  | _ => None
                  end) tr.

(** The log line of [closeClient]. *)
Definition logged (res : option error) : list Event :=
  match res with
  | Some err => [EvLogError "could not close client" err]
  | None => []
  end.

(** The events of [cleanup], [e1] and [e2] being what the two [Close]
    returned. *)
Definition closing (cancel : option Context) (e1 e2 : option error)
  : list Event :=
  EvCloseMongo e1 :: logged e1 ++ EvCloseNats e2 :: logged e2 ++ [EvStop cancel].

Definition is_cleanup (ev : Event) : bool :=
  match ev with
  | EvCloseMongo _ | EvCloseNats _ | EvLogError _ _ | EvStop _ => true
  | _ => false
  end.

(** The value the body of [Run] returns, read off its events: what the
    last call returned. *)
Definition returned (body : list Event) : option error :=
  match last body with
  | Some (EvWait r) | Some (EvCreateCollection _ r) | Some (EvAddStream _ r) => r
  | _ => None
  end.

End run_trace.

(** ** Package connector: [New] *)

Module connector_New.
Import connector.

(** [for _, opt := range opts { if err := opt(&c.options); err != nil
    { return nil, err } }]: the loop of [New] over its options. *)
Fixpoint apply_options (opts : list Option) (o : Options)
  : option error * Options :=
  match opts with
  | [] => (None, o)
  | opt :: rest =>
      match opt o with
      | (Some err, o') => (Some err, o')
      | (None, o') => apply_options rest o'
      end
  end.

(** The connections [New] opens, in order, with the URI it gave and the
    error it got back. *)
Inductive Dial : Type :=
  | mongo_NewClient (uri : string) (res : option error)
  | nats_NewClient (url : string) (res : option error).

Section new.
Context {M N : Type}.

(** The constructors of the two clients are not among the sources:
    [NewMongo uri] is [mongo.NewClient(mongo.WithMongoUri(uri), ...)] and
    [NewNats url] is [nats.NewClient(nats.WithNatsUrl(url), ...)].
    [named m n] is the two clients seen as the server's monitors. *)
Variable NewMongo : string -> error + M.
Variable NewNats : string -> error + N.
Variable named : M -> N -> list server.NamedMonitor.

(** [New]: the connector with its two clients, or the error, and the
    connections that were tried.  The logger [New] builds from
    [logLevel] has nothing written to it yet; the server is given such
    a fresh logger. *)
Definition New (opts : list Option)
  : (error + Connector * M * N) * list Dial :=
  match apply_options opts getDefaultOptions with
  | (Some err, _) => (inl err, [])
  | (None, o) =>
      match NewMongo (mongoUri o) with
      | inl err => (inl err, [mongo_NewClient (mongoUri o) (Some err)])
      | inr m =>
          match NewNats (natsUrl o) with
          | inl err =>
              (inl err, [mongo_NewClient (mongoUri o) None;
                         nats_NewClient (natsUrl o) (Some err)])
          | inr n =>
              let c := signal_NotifyContext (ctx o) in
              let o := set_stop (Some c) (set_ctx c o) in
              (inr ({| options := o;
                       server :=
                         server.New
                           [ server.WithAddr (serverAddr o);
                             server.WithContext (Some (ctx o));
                             server.WithNamedMonitors (Some (named m n));
                             server.WithLogger (Some zap.NewNop) ] |}, m, n),
               [mongo_NewClient (mongoUri o) None;
                nats_NewClient (natsUrl o) None])
          end
      end
  end.

End new.

Section vocabulary.
Context `{GoStrings}.

(** The options a caller of the package can pass to [New]. *)
Inductive package_option : Option -> Prop :=
  | po_logLevel s : package_option (WithLogLevel s)
  | po_mongoUri s : package_option (WithMongoUri s)
  | po_natsUrl s : package_option (WithNatsUrl s)
  | po_context c : package_option (WithContext c)
  | po_serverAddr s : package_option (WithServerAddr s)
  | po_collection db coll opts :
      Forall collection_option opts →
      package_option (WithCollection db coll opts).

(** The invariants of a configured collection. *)
Definition valid_collection (c : collection) : Prop :=
  dbName c ≠ EmptyString ∧ collName c ≠ EmptyString
  ∧ tokensDbName c ≠ EmptyString ∧ tokensCollName c ≠ EmptyString
  ∧ EqualFold (dbName c) (tokensDbName c)
    && EqualFold (collName c) (tokensCollName c) = false
  ∧ (tokensCollCapped c = true ↔ (0 < tokensCollSizeInBytes c)%Z)
  ∧ (tokensCollCapped c = false → tokensCollSizeInBytes c = 0%Z).

(** The options that set one field of [Options] each, by field. *)
Inductive field : Type :=
  | f_logLevel | f_mongoUri | f_natsUrl | f_ctx | f_serverAddr.

Inductive scalar_option : field -> Option -> Prop :=
  | so_logLevel s : scalar_option f_logLevel (WithLogLevel s)
  | so_mongoUri s : scalar_option f_mongoUri (WithMongoUri s)
  | so_natsUrl s : scalar_option f_natsUrl (WithNatsUrl s)
  | so_context c : scalar_option f_ctx (WithContext c)
  | so_serverAddr s : scalar_option f_serverAddr (WithServerAddr s).

End vocabulary.

End connector_New.

(** ** Package nats: [Close] and [Publish] of the client *)

Module DefaultClient.
Import nats.

Record PublishOptions : Type := {
  Subj : string;
  MsgId : string;
  Data : list N
}.

(** [js.Publish(subj, data, nats.MsgId(id))] on the server state [J]. *)
Class JetStreamPublish (J : Type) : Type := {
  js_Publish : string -> list N -> string -> J -> option error * J
}.

(** [fmt]'s [%v] of a byte slice: the bytes in decimal between brackets,
    a space between two. *)
Fixpoint fmt_bytes_tail (data : list N) : string :=
  match data with
  | [] => "]"
  | b :: rest => (" " ++ pretty b ++ fmt_bytes_tail rest)%string
  end.

Definition fmt_bytes (data : list N) : string :=
  match data with
  | [] => "[]"
  | b :: rest => ("[" ++ pretty b ++ fmt_bytes_tail rest)%string
  end.

(** [string(data)] *)
Definition string_of_bytes (data : list N) : string :=
  string_of_list_ascii (List.map ascii_of_N data).

Section methods.
Context {J : Type} `{!JetStreamPublish J}.

(** [DefaultClient.Close]: [c.conn.Close()] closes the connection (after
    it the library's [IsClosed] is true) and the method returns [nil];
    [None] when [conn] is [nil], where Go panics. *)
Definition Close (c : DefaultClient J) : option (option error * DefaultClient J) :=
  match conn c with
  | None => None
  | Some cn =>
      Some (None,
            {| name := name c; logger := logger c; opts := opts c;
               conn := Some {| ConnectedUrlRedacted := ConnectedUrlRedacted cn;
                               IsClosed := true |};
               js := js c |})
  end.

(** [DefaultClient.Publish]; [None] when [js] is [nil], where Go panics. *)
Definition Publish (_ : Context) (o : PublishOptions) (c : DefaultClient J)
  : option (option error * DefaultClient J) :=
  match js c with
  | None => None
  | Some j =>
      let '(err, st) := js_Publish (Subj o) (Data o) (MsgId o) (server_state j) in
      let c := {| name := name c; logger := logger c; opts := opts c;
                  conn := conn c;
                  js := Some {| server_state := st; requested := requested j |} |} in
      match err with
      | Some err =>
          Some (Some (errorString
                        ("could not publish message " ++ fmt_bytes (Data o)
                         ++ " to nats stream " ++ Subj o ++ ": " ++ Error err)%string),
                c)
      | None =>
          Some (None,
                {| name := name c;
                   logger := zap.Debug "published message"
                               [("subj", Subj o);
                                ("data", string_of_bytes (Data o))] (logger c);
                   opts := opts c; conn := conn c; js := js c |})
      end
  end.

End methods.

End DefaultClient.

(** ** Package server: the options a caller can pass *)

Module server_options.
Import server.

Inductive package_option : Option -> Prop :=
  | po_addr a : package_option (WithAddr a)
  | po_context c : package_option (WithContext c)
  | po_monitors ms : package_option (WithNamedMonitors ms)
  | po_logger l : package_option (WithLogger l).

End server_options.

(** ** Command connector: [main] *)

Module main.

Definition defaultConfigFileName : string := "connector.yaml".

(** The configuration tree of package config, as [main] reads it; the
    optional settings are pointers. *)
Record config_Mongo : Type := {
  Uri : string;
  AuthMechanism : string
}.

Record config_Nats : Type := {
  Url : string;
  Credentials : string;
  User : string;
  Password : string;
  Token : string
}.

Record config_Collection : Type := {
  DbName : string;
  CollName : string;
  ChangeStreamPreAndPostImages : option bool;
  TokensDbName : string;
  TokensCollName : string;
  TokensCollCapped : option bool;
  TokensCollSizeInBytes : option Z;
  StreamName : string
}.

(** [os.LookupEnv] reads the environment, a map from names to values. *)
Definition getEnvOrDefault (environ : gmap string string) (env def : string)
  : string :=
  match environ !! env with
  | Some val => val
  | None => def
  end.

(** The driver's [options.ClientOptions], its [Auth] credential. *)
Record Credential : Type := { cred_AuthMechanism : string }.
Record ClientOptions : Type := { Auth : option Credential }.

Definition options_Client : ClientOptions := {| Auth := None |}.

(** [getMongoOptions]: the [opts] declared with [:=] inside the [if] is
    a new variable of that block; the function returns the outer one. *)
Definition getMongoOptions (cfg : config_Mongo) : option ClientOptions :=
  let opts : option ClientOptions := None in
  let block :=
    if nonempty (AuthMechanism cfg)
    then
      let opts := options_Client in
      let opts := {| Auth := Some {| cred_AuthMechanism := AuthMechanism cfg |} |} in
      Some opts
    else None in
  opts.

(** The library's options [getNatsOptions] builds. *)
Inductive nats_Option : Type :=
  | nats_UserCredentials (userOrChainedFile : string)
  | nats_UserInfo (user password : string)
  | nats_Token (token : string).

Definition getNatsOptions (cfg : config_Nats) : list nats_Option :=
  let opts := [] in
  let opts := if nonempty (Credentials cfg)
              then opts ++ [nats_UserCredentials (Credentials cfg)] else opts in
  let opts := if nonempty (User cfg) && nonempty (Password cfg)
              then opts ++ [nats_UserInfo (User cfg) (Password cfg)] else opts in
  let opts := if nonempty (Token cfg)
              then opts ++ [nats_Token (Token cfg)] else opts in
  opts.

(** [zapcore.Level] *)
Inductive zapcore_Level : Type :=
  | DebugLevel | InfoLevel | WarnLevel | ErrorLevel | PanicLevel | FatalLevel.

(** The [switch] of [getLogger]: the level of the logger it builds. *)
Definition zapLevel (level : string) : zapcore_Level :=
  if bool_decide (level = "debug") then DebugLevel
  else if bool_decide (level = "info") then InfoLevel
  else if bool_decide (level = "warn") then WarnLevel
  else if bool_decide (level = "error") then ErrorLevel
  else if bool_decide (level = "fatal") then FatalLevel
  else if bool_decide (level = "panic") then PanicLevel
  else InfoLevel.

(** The collection options [main] builds for one configured
    collection. *)
Definition collOpts (coll : config_Collection) : list connector.CollectionOption :=
  let collOpts :=
    [ connector.WithTokensDbName (TokensDbName coll);
      connector.WithTokensCollName (TokensCollName coll);
      connector.WithStreamName (StreamName coll) ] in
  let collOpts :=
    match ChangeStreamPreAndPostImages coll with
    | Some true => collOpts ++ [connector.WithChangeStreamPreAndPostImages]
    | _ => collOpts
    end in
  let collOpts :=
    match TokensCollCapped coll, TokensCollSizeInBytes coll with
    | Some true, Some size => collOpts ++ [connector.WithTokensCollCapped size]
    | _, _ => collOpts
    end in
  collOpts.

(** The option [main] appends for one configured collection. *)
Definition collection_opt `{GoStrings} (coll : config_Collection)
  : connector.Option :=
  connector.WithCollection (DbName coll) (CollName coll) (collOpts coll).

End main.

(** ** Concrete clients and inputs for the further properties *)

Module samples.

(** A bus that refuses a message without a subject. *)
Definition js_Publish (subj : string) (data : list N) (msgId : string)
    (streams : list string) : option error * list string :=
  if bool_decide (subj = EmptyString)
  then (Some (errorString "nats: invalid subject"), streams)
  else (None, streams).

Definition publisher : DefaultClient.JetStreamPublish (list string) :=
  {| DefaultClient.js_Publish := js_Publish |}.

(** A connected client of the bus of [dottedBus]. *)
Definition client : nats.DefaultClient (list string) :=
  {| nats.name := "nats"; nats.logger := zap.NewNop;
     nats.opts := nats.GetDefaultOptions;
     nats.conn := Some {| nats.ConnectedUrlRedacted := "nats://127.0.0.1:4222";
                          nats.IsClosed := false |};
     nats.js := Some {| nats.server_state := []; nats.requested := [] |} |}.

(** No server answers. *)
Definition Connect_down (o : nats.Options)
  : error + nats.Conn * nats.JetStream (list string) :=
  inl (errorString "nats: no servers available for connection").

(** A handler of the caller's. *)
Definition quiet : nats.ConnErrHandler := fun _ l => l.

(** The constructors of the two clients, giving the mocks of the tests;
    [named] is their [Name] and [Monitor]. *)
Definition NewMongo (uri : string) : error + mockMongoClient.t :=
  inr (mockMongoClient.new None).

Definition NewNats (url : string) : error + mockNatsClient.t :=
  inr (mockNatsClient.new None).

Definition named (m : mockMongoClient.t) (n : mockNatsClient.t)
  : list server.NamedMonitor :=
  [ {| server.Name := mockMongoClient.name m;
       server.Monitor := fun _ => mockMongoClient.monitorErr m |};
    {| server.Name := mockNatsClient.name n;
       server.Monitor := fun _ => mockNatsClient.monitorErr n |} ].

(** The options of a connector with one collection. *)
Definition options : list connector.Option :=
  [ connector.WithMongoUri "localhost:27017";
    connector.WithNatsUrl "localhost:4222";
    connector.WithCollection (H := ascii_GoStrings) "connector-db" "coll1"
      [ connector.WithTokensCollCapped 2048 ] ].

(** An entry of the configuration that asks for a capped tokens
    collection and gives no size. *)
Definition capped_without_size : main.config_Collection :=
  {| main.DbName := "connector-db"; main.CollName := "coll1";
     main.ChangeStreamPreAndPostImages := Some false;
     main.TokensDbName := EmptyString; main.TokensCollName := EmptyString;
     main.TokensCollCapped := Some true;
     main.TokensCollSizeInBytes := None;
     main.StreamName := EmptyString |}.

End samples.

(** * Properties *)

(** ** The options of the connector *)

Section connector_options.
Context `{GoStrings}.
Import connector.

(** C3: a level whose lower-casing is none of debug, warn, error, info
    is ignored: [WithLogLevel] returns [nil] and the options, [logLevel]
    included, are what they were. *)
Theorem WithLogLevel_unknown (level : string) (o : Options) :
  ToLower level ∉ ["debug"; "warn"; "error"; "info"] →
  WithLogLevel level o = (None, o).
Proof.
  intros Hl. unfold WithLogLevel.
  repeat (rewrite bool_decide_eq_false_2; [| intros E; apply Hl; rewrite E; set_solver]).
  reflexivity.
Qed.

(** The known levels, for comparison: each sets [logLevel] and nothing
    else. *)
Lemma WithLogLevel_known (level : string) (o : Options) (l : Level) :
  (ToLower level, l) ∈ [("debug", DebugLevel); ("warn", WarnLevel);
                        ("error", ErrorLevel); ("info", InfoLevel)] →
  WithLogLevel level o = (None, set_logLevel l o).
Proof.
  intros Hl. unfold WithLogLevel.
  repeat (apply elem_of_cons in Hl as [[= -> ->] | Hl]; [reflexivity |]).
  by apply elem_of_nil in Hl.
Qed.

(** C5: [WithTokensCollCapped s] fails with [ErrInvalidCollSizeInBytes]
    and changes nothing when [s <= 0]; when [s > 0] it succeeds, sets
    [tokensCollCapped] to true and [tokensCollSizeInBytes] to [s], and
    leaves the other fields. *)
Theorem WithTokensCollCapped_spec (s : Z) (c : collection) :
  ((s ≤ 0)%Z → WithTokensCollCapped s c = (Some ErrInvalidCollSizeInBytes, c))
  ∧ ((0 < s)%Z →
     ∃ c', WithTokensCollCapped s c = (None, c')
           ∧ tokensCollCapped c' = true
           ∧ tokensCollSizeInBytes c' = s
           ∧ dbName c' = dbName c ∧ collName c' = collName c
           ∧ changeStreamPreAndPostImages c' = changeStreamPreAndPostImages c
           ∧ tokensDbName c' = tokensDbName c
           ∧ tokensCollName c' = tokensCollName c
           ∧ streamName c' = streamName c).
Proof.
  unfold WithTokensCollCapped. split; intros Hs.
  - apply Z.leb_le in Hs. by rewrite Hs.
  - apply Z.leb_gt in Hs. rewrite Hs. eexists. split; [reflexivity |].
    by repeat split.
Qed.

(** The collection options of the package keep the names of the watched
    collection, and the only error they return is the one of the capped
    size. *)
Lemma collection_option_sound (opt : CollectionOption) (c : collection) :
  collection_option opt →
  dbName (opt c).2 = dbName c ∧ collName (opt c).2 = collName c
  ∧ ((opt c).1 = None ∨ (opt c).1 = Some ErrInvalidCollSizeInBytes).
Proof.
  destruct 1; cbn.
  - auto.
  - unfold WithTokensDbName. destruct (nonempty s); cbn; auto.
  - unfold WithTokensCollName. destruct (nonempty s); cbn; auto.
  - unfold WithTokensCollCapped. destruct (n <=? 0)%Z; cbn; auto.
  - unfold WithStreamName. destruct (nonempty s); cbn; auto.
Qed.

Lemma apply_opts_sound (opts : list CollectionOption) (c : collection) :
  Forall collection_option opts →
  dbName (apply_opts opts c).2 = dbName c
  ∧ collName (apply_opts opts c).2 = collName c
  ∧ ((apply_opts opts c).1 = None
     ∨ (apply_opts opts c).1 = Some ErrInvalidCollSizeInBytes).
Proof.
  intros Hopts. revert c.
  induction Hopts as [| opt opts Hopt _ IH]; intros c; cbn; [auto |].
  destruct (collection_option_sound opt c Hopt) as (Hd & Hc & Herr).
  destruct (opt c) as [[err |] c']; cbn in *.
  - destruct Herr as [? | ?]; [done | auto].
  - destruct (IH c') as (? & ? & ?). repeat split; [congruence .. | done].
Qed.

(** C4, amended: for non-empty names and collection options built by
    the package, [WithCollection] fails with [ErrInvalidDbAndCollNames]
    exactly when every option has returned nil and, after them, [dbName]
    equals [tokensDbName] and [collName] equals [tokensCollName], letter
    case aside (an option that fails ends the loop with its own error
    before the names are compared); on that failure the options, the
    collection list included, are unchanged. *)
Theorem WithCollection_invalid_names
    (db coll : string) (opts : list CollectionOption) (o : Options) :
  db ≠ EmptyString → coll ≠ EmptyString → Forall collection_option opts →
  ((WithCollection db coll opts o).1 = Some ErrInvalidDbAndCollNames
   ↔ ∃ c, apply_opts opts (new_collection db coll) = (None, c)
          ∧ EqualFold db (tokensDbName c) = true
          ∧ EqualFold coll (tokensCollName c) = true)
  ∧ ((WithCollection db coll opts o).1 = Some ErrInvalidDbAndCollNames →
     (WithCollection db coll opts o).2 = o).
Proof.
  intros Hdb Hcoll Hopts. unfold WithCollection.
  rewrite !bool_decide_eq_false_2 by done.
  destruct (apply_opts_sound opts (new_collection db coll) Hopts)
    as (Hd & Hc & Herr).
  destruct (apply_opts opts (new_collection db coll)) as [[err |] c];
    cbn in Hd, Hc, Herr.
  - destruct Herr as [? | ->]; [done |]. cbn. split; [| done].
    split; [done | intros (? & [=] & _)].
  - rewrite Hd, Hc.
    destruct (EqualFold db (tokensDbName c)) eqn:E1;
      destruct (EqualFold coll (tokensCollName c)) eqn:E2; cbn.
    + split; [| done]. split; [eauto | done].
    + split; [| done]. split; [done | intros (? & [= <-] & ? & ?); congruence].
    + split; [| done]. split; [done | intros (? & [= <-] & ? & ?); congruence].
    + split; [| done]. split; [done | intros (? & [= <-] & ? & ?); congruence].
Qed.

(** C6, amended: for non-empty names, [dbName] not being the default
    tokens database [resume-tokens] (letter case aside),
    [WithCollection] without options appends exactly one collection, with
    the default fields. *)
Theorem WithCollection_defaults (db coll : string) (o : Options) :
  db ≠ EmptyString → coll ≠ EmptyString →
  EqualFold db "resume-tokens" = false →
  WithCollection db coll [] o
  = (None,
     set_collections
       (collections o ++
        [{| dbName := db;
            collName := coll;
            changeStreamPreAndPostImages := false;
            tokensDbName := "resume-tokens";
            tokensCollName := coll;
            tokensCollCapped := false;
            tokensCollSizeInBytes := 0;
            streamName := ToUpper coll |}]) o).
Proof.
  intros Hdb Hcoll Hfold. unfold WithCollection.
  rewrite !bool_decide_eq_false_2 by done. cbn.
  unfold defaultTokensDbName. by rewrite Hfold.
Qed.

End connector_options.

(** *** The options at concrete inputs *)

Section connector_examples.
Import connector.
#[local] Existing Instance ascii_GoStrings.

Lemma WithLogLevel_unknown_witness :
  (ToLower "FATAL" ∉ ["debug"; "warn"; "error"; "info"])
  ∧ WithLogLevel "FATAL" getDefaultOptions = (None, getDefaultOptions).
Proof.
  assert (Hl : ToLower "FATAL" ∉ ["debug"; "warn"; "error"; "info"]).
  { apply (bool_decide_unpack _). vm_compute. reflexivity. }
  split; [exact Hl |].
  apply (WithLogLevel_unknown "FATAL" getDefaultOptions Hl).
Defined.

Example WithLogLevel_Debug :
  WithLogLevel "Debug" getDefaultOptions
  = (None, set_logLevel DebugLevel getDefaultOptions).
Proof. reflexivity. Qed.

Lemma WithTokensCollCapped_spec_witness :
  WithTokensCollCapped 0 (new_collection "test-db" "test-coll")
  = (Some ErrInvalidCollSizeInBytes, new_collection "test-db" "test-coll")
  ∧ ∃ c', WithTokensCollCapped 2048 (new_collection "connector-db" "coll1")
          = (None, c')
          ∧ tokensCollCapped c' = true ∧ tokensCollSizeInBytes c' = 2048%Z.
Proof.
  split.
  - apply (WithTokensCollCapped_spec 0 (new_collection "test-db" "test-coll")).
    lia.
  - destruct (proj2 (WithTokensCollCapped_spec 2048
                       (new_collection "connector-db" "coll1")))
      as (c' & Hc' & Hcap & Hsize & _); [lia |].
    exists c'. split; [exact Hc' | split; [exact Hcap | exact Hsize]].
Defined.

(** S5: the tokens may not live in the watched collection. *)
Lemma WithCollection_invalid_names_witness :
  (WithCollection "test-db" "test-coll"
     [WithTokensDbName "TEST-DB"; WithTokensCollName "Test-Coll"]
     getDefaultOptions).1 = Some ErrInvalidDbAndCollNames
  ∧ (WithCollection "test-db" "test-coll"
       [WithTokensDbName "TEST-DB"; WithTokensCollName "Test-Coll"]
       getDefaultOptions).2 = getDefaultOptions.
Proof.
  assert (Hopts : Forall collection_option
                    [WithTokensDbName "TEST-DB"; WithTokensCollName "Test-Coll"]).
  { repeat constructor. }
  destruct (WithCollection_invalid_names "test-db" "test-coll"
              [WithTokensDbName "TEST-DB"; WithTokensCollName "Test-Coll"]
              getDefaultOptions) as [Hiff Hframe];
    [discriminate | discriminate | exact Hopts |].
  assert (Herr : (WithCollection "test-db" "test-coll"
                    [WithTokensDbName "TEST-DB"; WithTokensCollName "Test-Coll"]
                    getDefaultOptions).1 = Some ErrInvalidDbAndCollNames).
  { apply Hiff. eexists. split; [reflexivity |]. split; vm_compute; reflexivity. }
  split; [exact Herr | exact (Hframe Herr)].
Defined.

(** C4 as stated fails when an option fails after the names have become
    equal: [WithTokensDbName "db"] makes the tokens location the watched
    collection, [WithTokensCollCapped 0] then ends the loop, and the
    error is the one of the size, not [ErrInvalidDbAndCollNames]. *)
Lemma WithCollection_invalid_names_counterexample :
  "db" ≠ EmptyString ∧ "coll" ≠ EmptyString
  ∧ EqualFold "db"
      (tokensDbName
         (apply_opts [WithTokensDbName "db"; WithTokensCollCapped 0]
            (new_collection "db" "coll")).2) = true
  ∧ EqualFold "coll"
      (tokensCollName
         (apply_opts [WithTokensDbName "db"; WithTokensCollCapped 0]
            (new_collection "db" "coll")).2) = true
  ∧ (WithCollection "db" "coll"
       [WithTokensDbName "db"; WithTokensCollCapped 0] getDefaultOptions).1
    = Some ErrInvalidCollSizeInBytes
  ∧ (WithCollection "db" "coll"
       [WithTokensDbName "db"; WithTokensCollCapped 0] getDefaultOptions).1
    ≠ Some ErrInvalidDbAndCollNames.
Proof. repeat split; (discriminate || (vm_compute; reflexivity)). Qed.

(** An option that fails comes first: the error is the option's. *)
Example WithCollection_capped_error :
  WithCollection "db" "coll"
    [WithTokensDbName "db"; WithTokensCollName "coll"; WithTokensCollCapped 0]
    getDefaultOptions
  = (Some ErrInvalidCollSizeInBytes, getDefaultOptions).
Proof. reflexivity. Qed.

(** C6 as stated fails when the database is the default tokens database:
    nothing is appended. *)
Lemma WithCollection_defaults_counterexample :
  "resume-tokens" ≠ EmptyString ∧ "coll1" ≠ EmptyString
  ∧ WithCollection "resume-tokens" "coll1" [] getDefaultOptions
    = (Some ErrInvalidDbAndCollNames, getDefaultOptions)
  ∧ collections (WithCollection "resume-tokens" "coll1" [] getDefaultOptions).2
    = [].
Proof. repeat split; (discriminate || (vm_compute; reflexivity)). Qed.

Lemma WithCollection_defaults_witness :
  WithCollection "connector-db" "coll1" [] getDefaultOptions
  = (None,
     set_collections
       [{| dbName := "connector-db";
           collName := "coll1";
           changeStreamPreAndPostImages := false;
           tokensDbName := "resume-tokens";
           tokensCollName := "coll1";
           tokensCollCapped := false;
           tokensCollSizeInBytes := 0;
           streamName := "COLL1" |}] getDefaultOptions).
Proof.
  assert (Hdb : "connector-db" ≠ EmptyString) by discriminate.
  assert (Hcoll : "coll1" ≠ EmptyString) by discriminate.
  assert (Hfold : EqualFold "connector-db" "resume-tokens" = false)
    by (vm_compute; reflexivity).
  exact (WithCollection_defaults "connector-db" "coll1" getDefaultOptions
           Hdb Hcoll Hfold).
Defined.

End connector_examples.

(** ** The supervisor *)

Section run_properties.
Context {M N : Type} `{!mongo.Client M} `{!nats.Client N}.
Variable running : list connector.Task → M → N → M * N.
Variable group_Wait : list connector.Task → M → N → option error * (M * N).
Import connector run_trace.

Lemma yield_trace (s : connector.state M N) : trace (yield running s).2 = trace s.
Proof. unfold yield. by destruct (running _ _ _). Qed.

Lemma CreateCollection_trace g o (s : connector.state M N) :
  trace (mongoClient_CreateCollection running g o s).2
  = trace s ++ [EvCreateCollection o (mongoClient_CreateCollection running g o s).1].
Proof.
  unfold mongoClient_CreateCollection.
  pose proof (yield_trace s) as Hy. destruct (yield running s) as [[] s1].
  destruct (mongo.CreateCollection _ _ _). cbn in *. by rewrite Hy.
Qed.

Lemma AddStream_trace g o (s : connector.state M N) :
  trace (natsClient_AddStream running g o s).2
  = trace s ++ [EvAddStream o (natsClient_AddStream running g o s).1].
Proof.
  unfold natsClient_AddStream.
  pose proof (yield_trace s) as Hy. destruct (yield running s) as [[] s1].
  destruct (nats.AddStream _ _ _). cbn in *. by rewrite Hy.
Qed.




(** The loop either bootstraps every collection, or stops at the first
    call that fails, after the watchers of the collections before it. *)
Lemma Run_collections_trace g colls (s : connector.state M N) :
  ((Run_collections running g colls s).1 = None
   ∧ trace (Run_collections running g colls s).2
     = trace s ++ concat (map (bootstrapped g) colls))
  ∨ (∃ e pre coll post fail,
       (Run_collections running g colls s).1 = Some e
       ∧ colls = pre ++ coll :: post
       ∧ bootstrap_failed coll e fail
       ∧ trace (Run_collections running g colls s).2
         = trace s ++ concat (map (bootstrapped g) pre) ++ fail).
Proof.
  revert s. induction colls as [| coll rest IH]; intros s; cbn.
  { left. by rewrite app_nil_r. }
  unfold or_return.
  pose proof (CreateCollection_trace g (createWatchedCollOpts coll) s) as H1.
  destruct (mongoClient_CreateCollection running g (createWatchedCollOpts coll) s)
    as [[e |] s1]; cbn in H1.
  { right. exists e, [], coll, rest, [EvCreateCollection (createWatchedCollOpts coll) (Some e)].
    repeat split; [constructor | done]. }
  pose proof (CreateCollection_trace g (createResumeTokensCollOpts coll) s1) as H2.
  destruct (mongoClient_CreateCollection running g (createResumeTokensCollOpts coll) s1)
    as [[e |] s2]; cbn in H2.
  { right. exists e, [], coll, rest. eexists. repeat split; [apply failed_tokens |].
    cbn. rewrite H2, H1. by rewrite <- app_assoc. }
  pose proof (AddStream_trace g (addStreamOpts coll) s2) as H3.
  destruct (natsClient_AddStream running g (addStreamOpts coll) s2)
    as [[e |] s3]; cbn in H3.
  { right. exists e, [], coll, rest. eexists. repeat split; [apply failed_stream |].
    cbn. rewrite H3, H2, H1. by rewrite <- !app_assoc. }
  cbn.
  match goal with |- context [Run_collections running g rest ?x] =>
    set (s4 := x)
  end.
  assert (Hs4 : trace s4 = trace s ++ bootstrapped g coll).
  { cbn. rewrite H3, H2, H1. by rewrite <- !app_assoc. }
  clearbody s4.
  destruct (IH s4) as [[Hr Ht] | (e & pre & c' & post & fail & Hr & -> & Hf & Ht)];
    rewrite Hs4 in Ht.
  - left. split; [done |]. rewrite Ht. by rewrite <- !app_assoc.
  - right. exists e, (coll :: pre), c', post, fail. repeat split; [done .. |].
    rewrite Ht. cbn. by rewrite <- !app_assoc.
Qed.


Lemma spawned_app (tr1 tr2 : list Event) :
  spawned (tr1 ++ tr2) = spawned tr1 ++ spawned tr2.
Proof. apply omap_app. Qed.


(** What the events of the three kinds of segment hold. *)
Lemma bootstrapped_events g (colls : list collection) :
  ddl_errors (concat (map (bootstrapped g) colls)) = []
  ∧ spawned (concat (map (bootstrapped g) colls))
    = map (λ coll, WatchCollection g (watchCollOpts coll)) colls
  ∧ watchers (concat (map (bootstrapped g) colls)) = map watchCollOpts colls
  ∧ Forall (λ ev, is_cleanup ev = false) (concat (map (bootstrapped g) colls)).
Proof.
  induction colls as [| coll rest (IH1 & IH2 & IH3 & IH4)]; cbn.
  - by repeat split.
  - repeat split; [done | by f_equal | by f_equal |].
    by repeat constructor.
Qed.

Lemma bootstrap_failed_events coll e fail :
  bootstrap_failed coll e fail →
  ddl_errors fail = [e] ∧ spawned fail = [] ∧ watchers fail = []
  ∧ Forall (λ ev, is_cleanup ev = false) fail
  ∧ ∀ tr, returned (tr ++ fail) = Some e.
Proof.
  unfold returned.
  destruct 1; (repeat split; [by repeat constructor |]); intros tr.
  all: by rewrite last_app.
Qed.


(** The two ways the body of [Run] ends. *)
Lemma Run_body_trace c (s : connector.state M N) :
  let g := errgroup_WithContext (ctx (options c)) in
  (trace (Run_body running group_Wait c s).2
   = trace s ++ concat (map (bootstrapped g) (collections (options c)))
     ++ [EvGo server_Run; EvGo (server_Close g);
         EvWait (Run_body running group_Wait c s).1])
  ∨ (∃ e pre coll post fail,
       (Run_body running group_Wait c s).1 = Some e
       ∧ collections (options c) = pre ++ coll :: post
       ∧ bootstrap_failed coll e fail
       ∧ trace (Run_body running group_Wait c s).2
         = trace s ++ concat (map (bootstrapped g) pre) ++ fail).
Proof.
  intros g. unfold Run_body, or_return. fold g.
  destruct (Run_collections_trace g (collections (options c)) s)
    as [[Hr Ht] | (e & pre & coll & post & fail & Hr & Hc & Hf & Ht)];
    destruct (Run_collections running g (collections (options c)) s)
      as [r s1]; cbn in Hr, Ht; subst r.
  - left. cbn. unfold group_wait. cbn.
    destruct (group_Wait _ _ _) as [r [m n]]. cbn. rewrite Ht.
    by rewrite <- !app_assoc.
  - right. exists e, pre, coll, post, fail. by repeat split.
Qed.


(** What [closeClient] does on each client: the goroutines have their
    turn, [Close] is called, its result is recorded and, if it is an
    error, logged. *)
Lemma closeClient_mongo_spec (s1 : connector.state M N) :
  (closeClient (mongoClient_Close running) s1).2
  = {| mongoClient :=
         (mongo.Close
            (running (spawned (trace s1)) (mongoClient s1) (natsClient s1)).1).2;
       natsClient :=
         (running (spawned (trace s1)) (mongoClient s1) (natsClient s1)).2;
       trace :=
         trace s1
         ++ EvCloseMongo
              (mongo.Close
                 (running (spawned (trace s1)) (mongoClient s1)
                    (natsClient s1)).1).1
            :: logged
                 (mongo.Close
                    (running (spawned (trace s1)) (mongoClient s1)
                       (natsClient s1)).1).1 |}.
Proof.
  unfold closeClient, mongoClient_Close, yield.
  destruct (running (spawned (trace s1)) (mongoClient s1) (natsClient s1))
    as [m1 n1]. cbn -[spawned].
  destruct (mongo.Close m1) as [[err |] m2]; cbn -[spawned];
    [by rewrite <- app_assoc | done].
Qed.

Lemma closeClient_nats_spec (s1 : connector.state M N) :
  (closeClient (natsClient_Close running) s1).2
  = {| mongoClient :=
         (running (spawned (trace s1)) (mongoClient s1) (natsClient s1)).1;
       natsClient :=
         (nats.Close
            (running (spawned (trace s1)) (mongoClient s1) (natsClient s1)).2).2;
       trace :=
         trace s1
         ++ EvCloseNats
              (nats.Close
                 (running (spawned (trace s1)) (mongoClient s1)
                    (natsClient s1)).2).1
            :: logged
                 (nats.Close
                    (running (spawned (trace s1)) (mongoClient s1)
                       (natsClient s1)).2).1 |}.
Proof.
  unfold closeClient, natsClient_Close, yield.
  destruct (running (spawned (trace s1)) (mongoClient s1) (natsClient s1))
    as [m1 n1]. cbn -[spawned].
  destruct (nats.Close n1) as [[err |] n2]; cbn -[spawned];
    [by rewrite <- app_assoc | done].
Qed.

Lemma spawned_closed (tr : list Event) (e : option error) :
  spawned (tr ++ EvCloseMongo e :: logged e) = spawned tr.
Proof. rewrite spawned_app. destruct e; cbn; by rewrite app_nil_r. Qed.

(** What [cleanup] does to the clients: [Close] is called on the DocDB
    client as the goroutines have left it, then on the bus client as
    the goroutines have left it by then. *)
Lemma cleanup_clients c (s1 : connector.state M N) :
  trace (cleanup running c s1).2
  = trace s1
    ++ closing (stop (options c))
         (mongo.Close
            (running (spawned (trace s1)) (mongoClient s1) (natsClient s1)).1).1
         (nats.Close
            (running (spawned (trace s1))
               (mongo.Close
                  (running (spawned (trace s1)) (mongoClient s1)
                     (natsClient s1)).1).2
               (running (spawned (trace s1)) (mongoClient s1)
                  (natsClient s1)).2).2).1
  ∧ mongoClient (cleanup running c s1).2
    = (running (spawned (trace s1))
         (mongo.Close
            (running (spawned (trace s1)) (mongoClient s1) (natsClient s1)).1).2
         (running (spawned (trace s1)) (mongoClient s1) (natsClient s1)).2).1
  ∧ natsClient (cleanup running c s1).2
    = (nats.Close
         (running (spawned (trace s1))
            (mongo.Close
               (running (spawned (trace s1)) (mongoClient s1)
                  (natsClient s1)).1).2
            (running (spawned (trace s1)) (mongoClient s1)
               (natsClient s1)).2).2).2.
Proof.
  unfold cleanup.
  pose proof (closeClient_mongo_spec s1) as H1.
  destruct (closeClient (mongoClient_Close running) s1) as [[] s2].
  cbn [snd] in H1. subst s2.
  match goal with |- context [closeClient (natsClient_Close running) ?s] =>
    pose proof (closeClient_nats_spec s) as H2;
    destruct (closeClient (natsClient_Close running) s) as [[] s3]
  end.
  cbn [snd] in H2. subst s3. cbn -[spawned closing].
  rewrite !spawned_closed. unfold closing.
  split; [by rewrite <- !app_assoc | done].
Qed.

(** C7: every run ends with [cleanup].  After the body of [Run] the
    DocDB client is closed, then the bus client, then the signal
    handler is released, and before that none of the three has
    happened: [e1] and [e2] are what [Close] returned on the DocDB
    client and on the bus client, taken as the goroutines had left
    them, and the clients [Run] leaves behind are the closed ones.  The
    value returned is the one the body had fixed before, whatever the
    two [Close] return: their errors are logged only. *)
Theorem Run_cleanup c (s : connector.state M N) :
  ∃ body e1 e2 m n,
    trace (Run running group_Wait c s).2
    = trace s ++ body ++ closing (stop (options c)) e1 e2
    ∧ Forall (λ ev, is_cleanup ev = false) body
    ∧ (Run running group_Wait c s).1 = returned body
    ∧ (Run running group_Wait c s).1 = (Run_body running group_Wait c s).1
    ∧ trace (Run_body running group_Wait c s).2 = trace s ++ body
    ∧ running (spawned (trace s ++ body))
        (mongoClient (Run_body running group_Wait c s).2)
        (natsClient (Run_body running group_Wait c s).2)
      = (m, n)
    ∧ e1 = (mongo.Close m).1
    ∧ mongoClient (Run running group_Wait c s).2
      = (running (spawned (trace s ++ body)) (mongo.Close m).2 n).1
    ∧ e2 = (nats.Close
              (running (spawned (trace s ++ body)) (mongo.Close m).2 n).2).1
    ∧ natsClient (Run running group_Wait c s).2
      = (nats.Close
           (running (spawned (trace s ++ body)) (mongo.Close m).2 n).2).2.
Proof.
  assert (Hrun : Run running group_Wait c s
                 = ((Run_body running group_Wait c s).1,
                    (cleanup running c (Run_body running group_Wait c s).2).2)).
  { unfold Run. destruct (Run_body running group_Wait c s) as [r s1]. cbn.
    by destruct (cleanup running c s1) as [[] s2]. }
  destruct (cleanup_clients c (Run_body running group_Wait c s).2)
    as (Ht & Hm & Hn).
  rewrite Hrun. cbn [fst snd]. rewrite Ht, Hm, Hn.
  destruct (Run_body_trace c s)
    as [Hb | (e & pre & coll & post & fail & Hb1 & Hc & Hf & Hb)]; cbn in Hb.
  - exists (concat (map (bootstrapped (errgroup_WithContext (ctx (options c))))
                      (collections (options c)))
            ++ [EvGo server_Run;
                EvGo (server_Close (errgroup_WithContext (ctx (options c))));
                EvWait (Run_body running group_Wait c s).1]).
    eexists _, _, _, _. rewrite Hb.
    split; [by rewrite <- !app_assoc |]. split; [| split; [| split; [done |]]].
    + apply Forall_app. split; [apply bootstrapped_events |].
      by repeat constructor.
    + unfold returned. by rewrite last_app.
    + split; [done |]. split; [apply surjective_pairing |]. by repeat split.
  - destruct (bootstrap_failed_events coll e fail Hf) as (_ & _ & _ & Hcl & Hret).
    exists (concat (map (bootstrapped (errgroup_WithContext (ctx (options c))))
                      pre) ++ fail).
    eexists _, _, _, _. rewrite Hb.
    split; [by rewrite <- !app_assoc |]. split; [| split; [| split; [done |]]].
    + apply Forall_app. split; [apply bootstrapped_events | done].
    + by rewrite Hb1, Hret.
    + split; [done |]. split; [apply surjective_pairing |]. by repeat split.
Qed.


End run_properties.
(** *** Runs of the supervisor *)

Section run_examples.
Import connector run_trace.



(** S2: the DocDB client refuses the first collection; no watcher. *)
Example Run_createCollectionErr :
  (scenario.mock_run (Some (errorString "create collection error")) None
     (scenario.connector_of scenario.TestConnector_Run_options)).1
  = Some (errorString "create collection error")
  ∧ spawned
      (trace (scenario.mock_run (Some (errorString "create collection error"))
                None
                (scenario.connector_of scenario.TestConnector_Run_options)).2)
    = []
  ∧ mockMongoClient.closed
      (mongoClient
         (scenario.mock_run (Some (errorString "create collection error")) None
            (scenario.connector_of scenario.TestConnector_Run_options)).2)
    = true
  ∧ mockNatsClient.closed
      (natsClient
         (scenario.mock_run (Some (errorString "create collection error")) None
            (scenario.connector_of scenario.TestConnector_Run_options)).2)
    = true.
Proof. repeat split; vm_compute; reflexivity. Qed.

(** S3: the bus refuses the stream. *)
Example Run_addStreamErr :
  (scenario.mock_run None (Some (errorString "add stream error"))
     (scenario.connector_of scenario.TestConnector_Run_options)).1
  = Some (errorString "add stream error").
Proof. vm_compute. reflexivity. Qed.

(** S1 and S4: the calls of a run that goes through, in order. *)
Example Run_TestConnector_Run :
  let g := errgroup_WithContext
             (signal_NotifyContext (context_WithCancel context_Background)) in
  let coll := {| dbName := "connector-db"; collName := "coll1";
                 changeStreamPreAndPostImages := true;
                 tokensDbName := "tokens-db"; tokensCollName := "coll1-tokens";
                 tokensCollCapped := true; tokensCollSizeInBytes := 2048;
                 streamName := "coll1-stream" |} in
  scenario.TestConnector_Run_options
  = set_collections [coll]
      (set_ctx (context_WithCancel context_Background) getDefaultOptions)
  ∧ (scenario.mock_run None None
       (scenario.connector_of scenario.TestConnector_Run_options)).1
    = Some ErrServerClosed
  ∧ trace (scenario.mock_run None None
             (scenario.connector_of scenario.TestConnector_Run_options)).2
    = [ EvCreateCollection
          {| mongo.DbName := "connector-db"; mongo.CollName := "coll1";
             mongo.Capped := false; mongo.SizeInBytes := 0;
             mongo.ChangeStreamPreAndPostImages := true |} None;
        EvCreateCollection
          {| mongo.DbName := "tokens-db"; mongo.CollName := "coll1-tokens";
             mongo.Capped := true; mongo.SizeInBytes := 2048;
             mongo.ChangeStreamPreAndPostImages := false |} None;
        EvAddStream {| nats.StreamName := "coll1-stream" |} None;
        EvGo (WatchCollection g (watchCollOpts coll));
        EvGo server_Run;
        EvGo (server_Close g);
        EvWait (Some ErrServerClosed);
        EvCloseMongo None;
        EvCloseNats None;
        EvStop (Some (signal_NotifyContext
                        (context_WithCancel context_Background))) ].
Proof. repeat split; vm_compute; reflexivity. Qed.

(** S4: after the run both mocks are closed. *)
Example Run_closes_clients :
  mockMongoClient.closed
    (mongoClient
       (scenario.mock_run None None
          (scenario.connector_of scenario.TestConnector_Run_options)).2)
  = true
  ∧ mockNatsClient.closed
      (natsClient
         (scenario.mock_run None None
            (scenario.connector_of scenario.TestConnector_Run_options)).2)
    = true.
Proof. split; vm_compute; reflexivity. Qed.

(** The bus fails to close: the error is logged, and [Run] still returns
    what the group returned. *)
Example Run_close_error :
  (scenario.dotted_run
     (scenario.connector_of scenario.TestConnector_Run_options)).1
  = Some ErrServerClosed
  ∧ ∃ body,
      trace (scenario.dotted_run
               (scenario.connector_of scenario.TestConnector_Run_options)).2
      = body ++ closing (Some (signal_NotifyContext
                                 (context_WithCancel context_Background)))
                  None (Some dottedBus.ErrConnectionClosed)
      ∧ last body = Some (EvWait (Some ErrServerClosed)).
Proof.
  split; [vm_compute; reflexivity |].
  eexists (take 7 (trace (scenario.dotted_run
     (scenario.connector_of scenario.TestConnector_Run_options)).2)).
  split; vm_compute; reflexivity.
Qed.

End run_examples.

(** ** The bus client *)

Section nats_client.
Context {J : Type} `{!nats.JetStreamContext J}.
Import nats.

(** A client that [NewDefaultClient] returns is connected and carries the
    callbacks of [extraOpts]. *)
Lemma NewDefaultClient_connected
    (Connect : Options → error + Conn * JetStream J)
    (options : list ClientOption) (c : DefaultClient J) :
  NewDefaultClient Connect options = inr c →
  is_Some (js c) ∧ is_Some (conn c)
  ∧ is_Some (DisconnectedErrCB (opts c))
  ∧ is_Some (ReconnectedCB (opts c)) ∧ is_Some (ClosedCB (opts c)).
Proof.
  unfold NewDefaultClient, NewDefaultClient_calls. cbn.
  destruct (Connect _) as [err | [cn j]]; [done |].
  intros [= <-]. cbn. eauto 10.
Qed.

(** C8: [AddStream] with stream name [s] sends the JetStream context one
    request, for a stream named [s] with the single subject [s.*] and
    file storage, and returns an error exactly when that request
    fails. *)
Theorem AddStream_request (c0 : Context) (s : string) (c : DefaultClient J)
    (j : JetStream J) :
  js c = Some j →
  ∃ err c' j',
    DefaultClient_AddStream c0 {| StreamName := s |} c = Some (err, c')
    ∧ js c' = Some j'
    ∧ requested j'
      = requested j ++ [{| Name := s;
                           Subjects := [(s ++ ".*")%string];
                           Storage := FileStorage |}]
    ∧ server_state j'
      = (js_AddStream {| Name := s;
                         Subjects := [(s ++ ".*")%string];
                         Storage := FileStorage |} (server_state j)).2
    ∧ (is_Some err
       ↔ is_Some (js_AddStream {| Name := s;
                                  Subjects := [(s ++ ".*")%string];
                                  Storage := FileStorage |}
                    (server_state j)).1).
Proof.
  intros Hj. unfold DefaultClient_AddStream, stream_config. rewrite Hj. cbn.
  destruct (js_AddStream _ (server_state j)) as [[e |] st]; cbn.
  - eexists _, _, _. repeat split; eauto.
  - eexists _, _, _. repeat split; eauto.
Qed.

End nats_client.

Section nats_handlers.
Context {J : Type} `{!nats.JetStreamContext J}.
Import nats.

(** C9: [NewDefaultClient] registers the disconnect handler twice.
    Whatever its options and whether or not the connection succeeds, the
    options its handler loop calls on the connection options are four:
    [DisconnectErrHandler] twice, with the same handler both times, then
    one [ReconnectHandler] and one [ClosedHandler]; and the client it
    returns carries these handlers. *)
Theorem NewDefaultClient_registers_twice
    (Connect : Options → error + Conn * JetStream J)
    (options : list ClientOption) :
  ∃ d r k,
    (NewDefaultClient_calls Connect options).2
    = [ DisconnectErrHandler d; DisconnectErrHandler d;
        ReconnectHandler r; ClosedHandler k ]
    ∧ ∀ c, NewDefaultClient Connect options = inr c →
           DisconnectedErrCB (opts c) = Some d
           ∧ ReconnectedCB (opts c) = Some r
           ∧ ClosedCB (opts c) = Some k.
Proof.
  eexists _, _, _. unfold NewDefaultClient, NewDefaultClient_calls. cbn.
  destruct (Connect _) as [err | [cn j]]; cbn.
  - split; [reflexivity | done].
  - split; [reflexivity |]. by intros c [= <-].
Qed.

End nats_handlers.

Section nats_examples.
Import nats.
#[local] Existing Instance dottedBus.jetstream.

Lemma AddStream_request_witness :
  ∃ c err c' j',
    NewDefaultClient
      dottedBus.Connect [] = inr c
    ∧ DefaultClient_AddStream
        context_Background {| StreamName := "COLL1" |} c = Some (err, c')
    ∧ js c' = Some j'
    ∧ requested j'
      = [{| Name := "COLL1"; Subjects := ["COLL1.*"]; Storage := FileStorage |}]
    ∧ err = None.
Proof.
  destruct (NewDefaultClient
              dottedBus.Connect []) as [e | c] eqn:Hc; [discriminate |].
  assert (Hj : js c = Some {| server_state := []; requested := [] |}).
  { injection Hc as <-. reflexivity. }
  destruct (AddStream_request
              context_Background "COLL1" c _ Hj)
    as (err & c' & j' & Hadd & Hj' & Hreq & _ & Herr).
  exists c, err, c', j'. repeat split; [exact Hadd | exact Hj' | exact Hreq |].
  destruct err as [e |]; [| reflexivity].
  destruct (proj1 Herr (ex_intro _ e eq_refl)) as [x Hx]. discriminate Hx.
Defined.

Lemma NewDefaultClient_registers_twice_witness :
  ∃ c d, NewDefaultClient dottedBus.Connect [] = inr c
         ∧ DisconnectedErrCB (opts c) = Some d
         ∧ (NewDefaultClient_calls dottedBus.Connect []).2 !! 0%nat
           = Some (DisconnectErrHandler d)
         ∧ (NewDefaultClient_calls dottedBus.Connect []).2 !! 1%nat
           = Some (DisconnectErrHandler d)
         ∧ length (NewDefaultClient_calls dottedBus.Connect []).2 = 4.
Proof.
  destruct (NewDefaultClient_registers_twice dottedBus.Connect [])
    as (d & r & k & Hcalls & Hc).
  destruct (NewDefaultClient dottedBus.Connect []) as [e | c] eqn:HN.
  - vm_compute in HN. discriminate HN.
  - exists c, d. split; [reflexivity |].
    split; [exact (proj1 (Hc c eq_refl)) |].
    rewrite Hcalls. repeat split.
Defined.

(** The bus refuses the name: the error of the client tells the stream
    and the cause, and the request was sent all the same. *)
Example AddStream_refused :
  ∃ c, NewDefaultClient
         dottedBus.Connect [] = inr c
       ∧ fst <$> DefaultClient_AddStream
                   context_Background {| StreamName := "ORDERS.V2" |} c
         = Some (Some (errorString
              "could not add nats stream ORDERS.V2: nats: invalid stream name")).
Proof. eexists. split; reflexivity. Qed.

End nats_examples.

(** ** The health endpoint *)

Section health.
Import server.








(** The response of the model at the monitors of [TestServer_Run] meets
    the three assertions of the test. *)
Remark healthCheck_TestServer_Run :
  ∃ res, serve (New [WithNamedMonitors (Some [cmpUp; cmpDown])]) "GET" "/healthz"
         = Some (Responds res)
         ∧ TestServer_Run_asserts res = true.
Proof. eexists. split; [reflexivity |]. vm_compute. reflexivity. Qed.

End health.


(** ** The string options *)

(** C10: each string option called with the empty string changes
    nothing: [WithAddr] of the server returns the server as it was, and
    [WithMongoUri], [WithNatsUrl], [WithServerAddr] of the connector and
    [WithTokensDbName], [WithTokensCollName], [WithStreamName] of a
    collection return [nil] and leave their struct as it was. *)
Theorem empty_string_options (s : server.Server) (o : connector.Options)
    (c : connector.collection) :
  server.WithAddr EmptyString s = s
  ∧ connector.WithMongoUri EmptyString o = (None, o)
  ∧ connector.WithNatsUrl EmptyString o = (None, o)
  ∧ connector.WithServerAddr EmptyString o = (None, o)
  ∧ connector.WithTokensDbName EmptyString c = (None, c)
  ∧ connector.WithTokensCollName EmptyString c = (None, c)
  ∧ connector.WithStreamName EmptyString c = (None, c).
Proof. repeat split. Qed.

(** A default set before is kept, and a non-empty string replaces it. *)
Example WithTokensDbName_keeps_default :
  connector.tokensDbName
    (connector.WithTokensDbName EmptyString
       (connector.new_collection (H := ascii_GoStrings) "db" "coll")).2
  = "resume-tokens"
  ∧ connector.tokensDbName
      (connector.WithTokensDbName "tokens-db"
         (connector.new_collection (H := ascii_GoStrings) "db" "coll")).2
    = "tokens-db"
  ∧ server.addr (server.New [server.WithAddr EmptyString]) = "127.0.0.1:18080"
  ∧ server.addr (server.New [server.WithAddr "127.0.0.1:8085"])
    = "127.0.0.1:8085".
Proof. repeat split. Qed.

(** * Further properties *)

(** ** [WithCollection] and the collection options *)

Section collection_extras.
Context `{GoStrings}.
Import connector connector_New.

(** X1: [WithCollection] is all or nothing, whatever the collection
    options do: when it returns an error the options are what they
    were, and when it returns [nil] exactly one collection, the one
    the collection options produced, has been appended after the
    earlier ones and no other field has changed. *)
Theorem WithCollection_atomic (db coll : string)
    (opts : list CollectionOption) (o : Options) :
  (is_Some (WithCollection db coll opts o).1 →
   (WithCollection db coll opts o).2 = o)
  ∧ ((WithCollection db coll opts o).1 = None →
     ∃ c, apply_opts opts (new_collection db coll) = (None, c)
          ∧ collections (WithCollection db coll opts o).2
            = collections o ++ [c]
          ∧ logLevel (WithCollection db coll opts o).2 = logLevel o
          ∧ mongoUri (WithCollection db coll opts o).2 = mongoUri o
          ∧ natsUrl (WithCollection db coll opts o).2 = natsUrl o
          ∧ ctx (WithCollection db coll opts o).2 = ctx o
          ∧ stop (WithCollection db coll opts o).2 = stop o
          ∧ serverAddr (WithCollection db coll opts o).2 = serverAddr o).
Proof.
  unfold WithCollection.
  destruct (bool_decide (db = EmptyString)); [by split |].
  destruct (bool_decide (coll = EmptyString)); [by split |].
  destruct (apply_opts opts (new_collection db coll)) as [[err |] c];
    [by split |].
  destruct (EqualFold _ _ && EqualFold _ _); [by split |].
  split; [by intros [? [=]] |]. intros _. exists c. by repeat split.
Qed.

(** An option list of the package fails exactly when it holds a capped
    size that is not positive. *)
Lemma apply_opts_fails (opts : list CollectionOption) (c : collection) :
  Forall collection_option opts →
  is_Some (apply_opts opts c).1
  ↔ ∃ s, WithTokensCollCapped s ∈ opts ∧ (s ≤ 0)%Z.
Proof.
  intros Hopts. revert c.
  induction Hopts as [| opt opts Hopt _ IH]; intros c; cbn.
  { split; [by intros [? [=]] | intros (s & Hs & _); by apply elem_of_nil in Hs]. }
  destruct (opt c) as [[err |] c'] eqn:Hc; cbn.
  - split; [intros _ | eauto].
    destruct Hopt; cbn in Hc; try (unfold WithTokensDbName, WithTokensCollName,
      WithStreamName, WithChangeStreamPreAndPostImages in Hc; discriminate Hc).
    exists n. split; [left |]. unfold WithTokensCollCapped in Hc.
    destruct (n <=? 0)%Z eqn:Hn; [by apply Z.leb_le | discriminate Hc].
  - rewrite IH. split.
    + intros (s & Hs & Hle). exists s. split; [by right | done].
    + intros (s & Hs & Hle). apply elem_of_cons in Hs as [<- | Hs]; [| eauto].
      exfalso. unfold WithTokensCollCapped in Hc.
      apply Z.leb_le in Hle. rewrite Hle in Hc. discriminate Hc.
Qed.

(** X2: which error [WithCollection] returns.  A missing [dbName] is
    reported first, then a missing [collName], both before any
    collection option runs; with both names given, the error is
    [ErrInvalidCollSizeInBytes] exactly when some [WithTokensCollCapped]
    of the list has a size that is not positive, wherever it stands and
    whatever the other options are. *)
Theorem WithCollection_errors (db coll : string)
    (opts : list CollectionOption) (o : Options) :
  (db = EmptyString →
   WithCollection db coll opts o = (Some ErrDbNameMissing, o))
  ∧ (db ≠ EmptyString → coll = EmptyString →
     WithCollection db coll opts o = (Some ErrCollNameMissing, o))
  ∧ (db ≠ EmptyString → coll ≠ EmptyString →
     Forall collection_option opts →
     ((WithCollection db coll opts o).1 = Some ErrInvalidCollSizeInBytes
      ↔ ∃ s, WithTokensCollCapped s ∈ opts ∧ (s ≤ 0)%Z)).
Proof.
  unfold WithCollection. split; [| split].
  - intros ->. reflexivity.
  - intros Hdb ->. by rewrite bool_decide_eq_false_2.
  - intros Hdb Hcoll Hopts. rewrite !bool_decide_eq_false_2 by done.
    rewrite <- (apply_opts_fails opts (new_collection db coll) Hopts).
    destruct (apply_opts_sound opts (new_collection db coll) Hopts)
      as (_ & _ & Herr).
    destruct (apply_opts opts (new_collection db coll)) as [[err |] c];
      cbn in *.
    + destruct Herr as [? | ->]; [done |]. split; eauto.
    + destruct (EqualFold _ _ && EqualFold _ _); cbn;
        (split; [done | by intros [? [=]]]).
Qed.

(** What the options of the package keep of a collection. *)
Lemma collection_option_keeps (opt : CollectionOption) (c c' : collection) :
  collection_option opt → opt c = (None, c') →
  (tokensDbName c ≠ EmptyString → tokensDbName c' ≠ EmptyString)
  ∧ (tokensCollName c ≠ EmptyString → tokensCollName c' ≠ EmptyString)
  ∧ ((tokensCollCapped c = true ↔ (0 < tokensCollSizeInBytes c)%Z) →
     (tokensCollCapped c' = true ↔ (0 < tokensCollSizeInBytes c')%Z))
  ∧ ((tokensCollCapped c = false → tokensCollSizeInBytes c = 0%Z) →
     (tokensCollCapped c' = false → tokensCollSizeInBytes c' = 0%Z))
  ∧ (changeStreamPreAndPostImages c = true →
     changeStreamPreAndPostImages c' = true)
  ∧ (tokensCollCapped c = true → tokensCollCapped c' = true).
Proof.
  destruct 1.
  - intros [= <-]. cbn. tauto.
  - unfold WithTokensDbName, nonempty.
    case_bool_decide; intros [= <-]; cbn; tauto.
  - unfold WithTokensCollName, nonempty.
    case_bool_decide; intros [= <-]; cbn; tauto.
  - unfold WithTokensCollCapped. destruct (n <=? 0)%Z eqn:Hn; [done |].
    intros [= <-]. cbn. apply Z.leb_gt in Hn.
    repeat split; auto; discriminate.
  - unfold WithStreamName, nonempty.
    case_bool_decide; intros [= <-]; cbn; tauto.
Qed.

Lemma apply_opts_valid (opts : list CollectionOption) (c c' : collection) :
  Forall collection_option opts → apply_opts opts c = (None, c') →
  tokensDbName c ≠ EmptyString → tokensCollName c ≠ EmptyString →
  (tokensCollCapped c = true ↔ (0 < tokensCollSizeInBytes c)%Z) →
  (tokensCollCapped c = false → tokensCollSizeInBytes c = 0%Z) →
  tokensDbName c' ≠ EmptyString ∧ tokensCollName c' ≠ EmptyString
  ∧ (tokensCollCapped c' = true ↔ (0 < tokensCollSizeInBytes c')%Z)
  ∧ (tokensCollCapped c' = false → tokensCollSizeInBytes c' = 0%Z).
Proof.
  intros Hopts. revert c.
  induction Hopts as [| opt opts Hopt _ IH]; intros c; cbn.
  { intros [= <-]. auto. }
  destruct (opt c) as [[err |] c1] eqn:Hc; [done |].
  intros Hrest H1 H2 H3 H4.
  destruct (collection_option_keeps opt c c1 Hopt Hc) as (K1 & K2 & K3 & K4 & _).
  apply (IH c1); auto.
Qed.

(** X3: the two flags of a collection are set by the presence of their
    option alone.  After a list of options of the package that all
    succeed, [changeStreamPreAndPostImages] is true exactly when
    [WithChangeStreamPreAndPostImages] is in the list, and
    [tokensCollCapped] is true exactly when a [WithTokensCollCapped] is;
    no option turns a flag off again. *)
Theorem apply_opts_flags (opts : list CollectionOption) (db coll : string)
    (c : collection) :
  Forall collection_option opts →
  apply_opts opts (new_collection db coll) = (None, c) →
  (changeStreamPreAndPostImages c = true
   ↔ WithChangeStreamPreAndPostImages ∈ opts)
  ∧ (tokensCollCapped c = true ↔ ∃ s, WithTokensCollCapped s ∈ opts).
Proof.
  intros Hopts.
  assert (Hgen : ∀ c0,
    apply_opts opts c0 = (None, c) →
    (changeStreamPreAndPostImages c = true
     ↔ changeStreamPreAndPostImages c0 = true
       ∨ WithChangeStreamPreAndPostImages ∈ opts)
    ∧ (tokensCollCapped c = true
       ↔ tokensCollCapped c0 = true ∨ ∃ s, WithTokensCollCapped s ∈ opts)).
  { induction Hopts as [| opt opts Hopt _ IH]; intros c0; cbn.
    - intros [= <-]. split; (split; [auto | intros [? | Hin]; [done |]]).
      + by apply elem_of_nil in Hin.
      + destruct Hin as [s Hs]. by apply elem_of_nil in Hs.
    - destruct (opt c0) as [[err |] c1] eqn:Hc; [done |]. intros Hrest.
      destruct (IH c1 Hrest) as [IH1 IH2]. rewrite IH1, IH2. clear IH IH1 IH2.
      destruct (collection_option_keeps opt c0 c1 Hopt Hc)
        as (_ & _ & _ & _ & K5 & K6).
      split; split.
      + intros [H1 | H1]; [| right; by right].
        destruct Hopt; cbn in Hc.
        * right. left.
        * left. revert Hc H1. unfold WithTokensDbName.
          destruct (nonempty s); by intros [= <-].
        * left. revert Hc H1. unfold WithTokensCollName.
          destruct (nonempty s); by intros [= <-].
        * left. revert Hc H1. unfold WithTokensCollCapped.
          destruct (n <=? 0)%Z; [done | by intros [= <-]].
        * left. revert Hc H1. unfold WithStreamName.
          destruct (nonempty s); by intros [= <-].
      + intros [H1 | H1]; [auto |].
        apply elem_of_cons in H1 as [<- | H1]; [| auto].
        left. by injection Hc as <-.
      + intros [H1 | (s & Hs)]; [| right; exists s; by right].
        destruct Hopt; cbn in Hc.
        * left. revert Hc H1. by intros [= <-].
        * left. revert Hc H1. unfold WithTokensDbName.
          destruct (nonempty s); by intros [= <-].
        * left. revert Hc H1. unfold WithTokensCollName.
          destruct (nonempty s); by intros [= <-].
        * right. exists n. left.
        * left. revert Hc H1. unfold WithStreamName.
          destruct (nonempty s); by intros [= <-].
      + intros [H1 | (s & Hs)]; [auto |].
        apply elem_of_cons in Hs as [<- | Hs]; [| eauto].
        left. revert Hc. unfold WithTokensCollCapped.
        destruct (s <=? 0)%Z; [done | by intros [= <-]]. }
  intros Hc. destruct (Hgen _ Hc) as [H1 H2]. rewrite H1, H2. cbn.
  unfold defaultChangeStreamPreAndPostImages, defaultTokensCollCapped.
  split; (split; [by intros [? | ?] | auto]).
Qed.

(** X4: with every collection option given, the collection holds the
    values given, none of the defaults: the images flag, the two tokens
    names, the capped flag with its size, and the stream name as given,
    not upper-cased. *)
Theorem WithCollection_all_options
    (db coll tdb tcoll stream : string) (size : Z) (o : Options) :
  db ≠ EmptyString → coll ≠ EmptyString →
  tdb ≠ EmptyString → tcoll ≠ EmptyString → stream ≠ EmptyString →
  (0 < size)%Z →
  EqualFold db tdb && EqualFold coll tcoll = false →
  WithCollection db coll
    [ WithChangeStreamPreAndPostImages; WithTokensDbName tdb;
      WithTokensCollName tcoll; WithTokensCollCapped size;
      WithStreamName stream ] o
  = (None,
     set_collections
       (collections o ++
        [{| dbName := db; collName := coll;
            changeStreamPreAndPostImages := true;
            tokensDbName := tdb; tokensCollName := tcoll;
            tokensCollCapped := true; tokensCollSizeInBytes := size;
            streamName := stream |}]) o).
Proof.
  intros Hdb Hcoll Htdb Htcoll Hstream Hsize Hfold.
  unfold WithCollection. rewrite !bool_decide_eq_false_2 by done.
  cbn. unfold WithTokensDbName, WithTokensCollName, WithTokensCollCapped,
    WithStreamName, nonempty.
  rewrite !bool_decide_eq_false_2 by done. cbn.
  apply Z.leb_gt in Hsize. rewrite Hsize. cbn. by rewrite Hfold.
Qed.

End collection_extras.

(** ** The options of [New] *)

Section new_extras.
Context `{GoStrings}.
Import connector connector_New.

(** An option that sets one field never fails and leaves the
    collections alone. *)
Lemma scalar_option_sound f (opt : Option) (o : Options) :
  scalar_option f opt →
  (opt o).1 = None ∧ collections (opt o).2 = collections o.
Proof.
  destruct 1; cbn.
  - unfold WithLogLevel. repeat case_bool_decide; done.
  - unfold WithMongoUri. by destruct (nonempty s).
  - unfold WithNatsUrl. by destruct (nonempty s).
  - unfold WithContext. by destruct c.
  - unfold WithServerAddr. by destruct (nonempty s).
Qed.

(** X5: the options that set one field each ([WithLogLevel],
    [WithMongoUri], [WithNatsUrl], [WithContext], [WithServerAddr]) can
    be given in any order: two of them for different fields commute. *)
Theorem scalar_options_commute f1 f2 (opt1 opt2 : Option) (o : Options) :
  scalar_option f1 opt1 → scalar_option f2 opt2 → f1 ≠ f2 →
  opt2 (opt1 o).2 = opt1 (opt2 o).2.
Proof.
  destruct 1; destruct 1; intros Hne; try done;
    unfold WithLogLevel, WithMongoUri, WithNatsUrl, WithContext, WithServerAddr;
    repeat case_bool_decide;
    repeat match goal with
           | |- context [nonempty ?s] => destruct (nonempty s)
           | c : option Context |- _ => destruct c
           end; reflexivity.
Qed.

(** One option of the package keeps the invariants of the collections
    configured so far, and a new collection comes with them. *)
Lemma package_option_valid (opt : Option) (o o' : Options) :
  package_option opt → opt o = (None, o') →
  Forall valid_collection (collections o) →
  Forall valid_collection (collections o').
Proof.
  intros Hopt Ho Hall.
  destruct Hopt as [s | s | s | c | s | db coll opts Hopts].
  - destruct (scalar_option_sound _ _ o (so_logLevel s)) as [_ Hc].
    rewrite Ho in Hc. cbn in Hc. by rewrite Hc.
  - destruct (scalar_option_sound _ _ o (so_mongoUri s)) as [_ Hc].
    rewrite Ho in Hc. cbn in Hc. by rewrite Hc.
  - destruct (scalar_option_sound _ _ o (so_natsUrl s)) as [_ Hc].
    rewrite Ho in Hc. cbn in Hc. by rewrite Hc.
  - destruct (scalar_option_sound _ _ o (so_context c)) as [_ Hc].
    rewrite Ho in Hc. cbn in Hc. by rewrite Hc.
  - destruct (scalar_option_sound _ _ o (so_serverAddr s)) as [_ Hc].
    rewrite Ho in Hc. cbn in Hc. by rewrite Hc.
  - revert Ho. unfold WithCollection.
    case_bool_decide as Hdb; [done |]. case_bool_decide as Hcoll; [done |].
    destruct (apply_opts_sound opts (new_collection db coll) Hopts)
      as (Hd & Hc & _).
    destruct (apply_opts opts (new_collection db coll)) as [[err |] c] eqn:Hopt;
      [done |].
    destruct (EqualFold _ _ && EqualFold _ _) eqn:Hfold; [done |].
    intros [= <-]. cbn. apply Forall_app. split; [done |].
    apply Forall_singleton. cbn in Hd, Hc.
    assert (V : tokensDbName c ≠ EmptyString ∧ tokensCollName c ≠ EmptyString
                ∧ (tokensCollCapped c = true ↔ (0 < tokensCollSizeInBytes c)%Z)
                ∧ (tokensCollCapped c = false → tokensCollSizeInBytes c = 0%Z)).
    { apply (apply_opts_valid opts (new_collection db coll) c Hopts Hopt); cbn.
      - done.
      - done.
      - unfold defaultTokensCollCapped, defaultTokensCollSizeInBytes.
        split; [done | lia].
      - done. }
    destruct V as (V1 & V2 & V3 & V4).
    unfold valid_collection. rewrite Hfold, Hd, Hc.
    repeat split; first [done | apply V3 | apply V4].
Qed.

Lemma apply_options_valid (opts : list Option) (o o' : Options) :
  Forall package_option opts → apply_options opts o = (None, o') →
  Forall valid_collection (collections o) →
  Forall valid_collection (collections o').
Proof.
  intros Hopts. revert o.
  induction Hopts as [| opt opts Hopt _ IH]; intros o; cbn.
  { by intros [= <-]. }
  destruct (opt o) as [[err |] o1] eqn:Ho; [done |].
  intros Hrest Hall. apply (IH o1 Hrest).
  by apply (package_option_valid opt o o1).
Qed.

Section new.
Context {M N : Type}.
Variable NewMongo : string → error + M.
Variable NewNats : string → error + N.
Variable named : M → N → list server.NamedMonitor.

(** X6: every collection of a connector that [New] returns keeps the
    invariants of the configuration: the four names are not empty, the
    tokens collection is not the watched collection (letter case
    aside), and the collection is capped exactly when its size is
    positive, the size of an uncapped one being 0. *)
Theorem New_collections_valid (opts : list Option) (c : Connector) (m : M)
    (n : N) (dials : list Dial) :
  Forall package_option opts →
  New NewMongo NewNats named opts = (inr (c, m, n), dials) →
  Forall valid_collection (collections (options c)).
Proof.
  intros Hopts. unfold New.
  destruct (apply_options opts getDefaultOptions) as [[err |] o] eqn:Ho; [done |].
  destruct (NewMongo (mongoUri o)) as [err | m']; [done |].
  destruct (NewNats (natsUrl o)) as [err | n']; [done |].
  intros [= <- _ _ _]. cbn.
  apply (apply_options_valid opts getDefaultOptions o Hopts Ho). constructor.
Qed.


(** X8: the connector that [New] returns.  Its context is the signal
    context derived from the configured one and [stop] is that
    context's cancel function, so [cleanup] has a function to call; the
    server runs under the same context and listens on the configured
    address, or on 127.0.0.1:18080 when none was configured. *)
Theorem New_connector (opts : list Option) (o : Options) (c : Connector)
    (m : M) (n : N) (dials : list Dial) :
  apply_options opts getDefaultOptions = (None, o) →
  New NewMongo NewNats named opts = (inr (c, m, n), dials) →
  ctx (options c) = signal_NotifyContext (ctx o)
  ∧ stop (options c) = Some (signal_NotifyContext (ctx o))
  ∧ collections (options c) = collections o
  ∧ server.ctx (server c) = ctx (options c)
  ∧ server.addr (server c)
    = (if bool_decide (serverAddr o = EmptyString)
       then "127.0.0.1:18080" else serverAddr o)
  ∧ (∃ h, server.http (server c) = Some h
          ∧ server.Addr h = server.addr (server c)
          ∧ server.BaseContext h = ctx (options c)).
Proof.
  intros Ho. unfold New. rewrite Ho.
  destruct (NewMongo (mongoUri o)) as [err | m']; [done |].
  destruct (NewNats (natsUrl o)) as [err | n']; [done |].
  intros [= <- _ _ _]. cbn.
  unfold server.WithAddr, nonempty, server.WithNamedMonitors.
  case_bool_decide; cbn; by eauto 10.
Qed.

End new.

End new_extras.

(** ** A run that bootstraps every collection *)

Section run_extras.
Context {M N : Type} `{!mongo.Client M} `{!nats.Client N}.
Variable running : list connector.Task → M → N → M * N.
Variable group_Wait : list connector.Task → M → N → option error * (M * N).
Import connector run_trace.


End run_extras.

(** ** The bus client *)

Lemma string_length_app (a b : string) :
  String.length (a ++ b)%string = String.length a + String.length b.
Proof. induction a as [| ch a IH]; simpl; [done | by f_equal]. Qed.

Section client_extras.
Context {J : Type} `{!nats.JetStreamContext J}
        `{!DefaultClient.JetStreamPublish J}.
Import nats.

(** X10: the connection is always opened with the client's own three
    handlers.  Whatever options [NewDefaultClient] is given, the options
    it connects with, which the client keeps, carry the disconnect,
    reconnect and closed handlers of [extraOpts]: a handler given
    through [WithNatsOptions] is replaced.  The servers are those the
    options left. *)
Theorem NewDefaultClient_handlers
    (Connect : Options → error + Conn * JetStream J)
    (options : list ClientOption) (c : DefaultClient J) :
  NewDefaultClient Connect options = inr c →
  DisconnectErrHandler <$> DisconnectedErrCB (opts c) = extraOpts !! 1%nat
  ∧ ReconnectHandler <$> ReconnectedCB (opts c) = extraOpts !! 2%nat
  ∧ ClosedHandler <$> ClosedCB (opts c) = extraOpts !! 3%nat
  ∧ Servers (opts c)
    = Servers (opts (apply_ClientOptions options
                       {| name := defaultName; logger := zap.NewNop;
                          opts := GetDefaultOptions; conn := None;
                          js := None |}))
  ∧ ∃ cn j, Connect (opts c) = inr (cn, j)
            ∧ conn c = Some cn ∧ js c = Some j.
Proof.
  unfold NewDefaultClient, NewDefaultClient_calls. cbn.
  destruct (Connect _) as [err | [cn j]] eqn:HC; [done |].
  intros [= <-]. cbn. repeat split. eauto.
Qed.

(** X11: [NewDefaultClient] fails only when the connection fails: the
    errors of its options are dropped.  The error it returns then is a
    new one whose text is [could not connect to nats: ] followed by the
    text of the cause; it is not the cause itself. *)
Theorem NewDefaultClient_error
    (Connect : Options → error + Conn * JetStream J)
    (options : list ClientOption) (err : error) :
  NewDefaultClient Connect options = inl err →
  ∃ o cause,
    Connect o = inl cause
    ∧ err = errorString ("could not connect to nats: " ++ Error cause)%string
    ∧ err ≠ cause.
Proof.
  unfold NewDefaultClient, NewDefaultClient_calls. cbn.
  destruct (Connect _) as [cause | [cn j]] eqn:HC; [| done].
  intros [= <-]. eexists _, cause. split; [exact HC |]. split; [done |].
  intros Heq. apply (f_equal Error) in Heq. cbn in Heq.
  apply (f_equal String.length) in Heq. rewrite string_length_app in Heq.
  cbn in Heq. lia.
Qed.

(** X12: [Close] and [Monitor].  On a connected client [Close] returns
    [nil] and changes nothing but the connection; before it [Monitor]
    reports what the connection says, and after it [Monitor] returns
    [ErrClientDisconnected]. *)
Theorem Close_then_Monitor (c0 : Context) (c : DefaultClient J) (cn : Conn) :
  conn c = Some cn →
  DefaultClient_Monitor c0 c
  = Some (if IsClosed cn then Some ErrClientDisconnected else None)
  ∧ ∃ c', DefaultClient.Close c = Some (None, c')
          ∧ DefaultClient_Monitor c0 c' = Some (Some ErrClientDisconnected)
          ∧ name c' = name c ∧ logger c' = logger c ∧ opts c' = opts c
          ∧ js c' = js c.
Proof.
  intros Hc. unfold DefaultClient_Monitor, DefaultClient.Close. rewrite Hc.
  split; [done |]. eexists. split; [reflexivity |]. by repeat split.
Qed.

(** X13: what [AddStream] leaves behind.  On success it logs one debug
    line with the stream name; on failure it logs nothing and its error
    is a new one whose text names the stream and ends with the text of
    the error that JetStream returned.  Either way the name, the
    options and the connection of the client are untouched. *)
Theorem AddStream_effects (c0 : Context) (o : AddStreamOptions)
    (c c' : DefaultClient J) (res : option error) :
  DefaultClient_AddStream c0 o c = Some (res, c') →
  name c' = name c ∧ opts c' = opts c ∧ conn c' = conn c
  ∧ ∃ j, js c = Some j
         ∧ res
           = (λ cause,
                errorString ("could not add nats stream " ++ StreamName o
                             ++ ": " ++ Error cause)%string)
             <$> (js_AddStream {| Name := StreamName o;
                                  Subjects := [(StreamName o ++ ".*")%string];
                                  Storage := FileStorage |}
                    (server_state j)).1
         ∧ logger c'
           = match (js_AddStream {| Name := StreamName o;
                                    Subjects := [(StreamName o ++ ".*")%string];
                                    Storage := FileStorage |}
                      (server_state j)).1 with
             | None =>
                 logger c ++ [{| zap.level := zap.DebugLevel;
                                 zap.msg := "added nats stream";
                                 zap.fields := [("streamName", StreamName o)] |}]
             | Some _ => logger c
             end.
Proof.
  unfold DefaultClient_AddStream, stream_config.
  destruct (js c) as [j |]; [| done].
  intros Hadd.
  assert (name c' = name c ∧ opts c' = opts c ∧ conn c' = conn c) as (? & ? & ?).
  { destruct (js_AddStream _ _) as [[cause |] st]; by injection Hadd as <- <-. }
  do 3 (split; [done |]). exists j. split; [done |].
  destruct (js_AddStream _ _) as [[cause |] st]; by injection Hadd as <- <-.
Qed.

(** X14: [Publish] hands the subject, the payload and the message id to
    the bus unchanged, the message id as the deduplication id, and
    returns an error exactly when the bus refuses the message; it asks
    for no stream, and it logs the message only when it went
    through. *)
Theorem Publish_request (c0 : Context) (o : DefaultClient.PublishOptions)
    (c : DefaultClient J) (j : JetStream J) :
  js c = Some j →
  ∃ res c' j',
    DefaultClient.Publish c0 o c = Some (res, c')
    ∧ js c' = Some j'
    ∧ server_state j'
      = (DefaultClient.js_Publish (DefaultClient.Subj o)
           (DefaultClient.Data o) (DefaultClient.MsgId o) (server_state j)).2
    ∧ requested j' = requested j
    ∧ (is_Some res
       ↔ is_Some (DefaultClient.js_Publish (DefaultClient.Subj o)
                    (DefaultClient.Data o) (DefaultClient.MsgId o)
                    (server_state j)).1)
    ∧ (res = None → length (logger c') = S (length (logger c)))
    ∧ (is_Some res → logger c' = logger c).
Proof.
  intros Hj. unfold DefaultClient.Publish. rewrite Hj.
  destruct (DefaultClient.js_Publish _ _ _ _) as [[cause |] st]; cbn.
  - eexists _, _, _. split; [reflexivity |]. cbn.
    split; [reflexivity |]. cbn. repeat split; eauto; done.
  - eexists _, _, _. split; [reflexivity |]. cbn.
    split; [reflexivity |]. cbn. repeat split; eauto.
    + intros _. unfold zap.Debug. rewrite length_app. cbn. lia.
    + by intros [? [=]].
Qed.

End client_extras.

(** ** The server's options *)

Section server_extras.
Import server.

Lemma server_option_addr (opt : Option) (s : Server) :
  server_options.package_option opt →
  addr s ≠ EmptyString → addr (opt s) ≠ EmptyString.
Proof.
  destruct 1; intros Hs; cbn.
  - unfold WithAddr, nonempty. by case_bool_decide.
  - by destruct c.
  - by destruct ms.
  - by destruct l.
Qed.

Lemma foldl_server_option_addr (opts : list Option) (s : Server) :
  Forall server_options.package_option opts →
  addr s ≠ EmptyString →
  addr (foldl (λ s opt, opt s) s opts) ≠ EmptyString.
Proof.
  intros Hopts. revert s.
  induction Hopts as [| opt opts Hopt _ IH]; intros s Hs; cbn; [done |].
  apply IH. by apply server_option_addr.
Qed.

(** X15: the listen address of the server.  Whatever options of the
    package [New] is given, the server has a non-empty address and its
    HTTP server listens on that address under the server's context; an
    empty [WithAddr] given last keeps the address chosen before it, and
    a non-empty one replaces it. *)
Theorem New_addr (opts : list Option) (a : string) :
  Forall server_options.package_option opts →
  addr (New opts) ≠ EmptyString
  ∧ (∃ h, http (New opts) = Some h
          ∧ Addr h = addr (New opts) ∧ BaseContext h = ctx (New opts))
  ∧ addr (New (opts ++ [WithAddr a]))
    = (if bool_decide (a = EmptyString) then addr (New opts) else a).
Proof.
  intros Hopts. unfold New. cbn. split; [| split].
  - by apply foldl_server_option_addr.
  - eauto.
  - rewrite foldl_app. cbn. unfold WithAddr, nonempty.
    by case_bool_decide.
Qed.

End server_extras.

(** ** The command *)

Section main_extras.
Context `{GoStrings}.
Import main.

(** X16: an environment variable that is set but empty hides the
    configured value without replacing it.  For the three string
    settings [main] reads through [getEnvOrDefault], the option is
    given the variable's value when the variable is set, the configured
    value otherwise; so a variable set to the empty string makes the
    option a no-op, the configured value being dropped. *)
Theorem getEnvOrDefault_option (environ : gmap string string)
    (env def : string) (o : connector.Options) :
  (environ !! env = None →
   connector.WithMongoUri (getEnvOrDefault environ env def) o
   = connector.WithMongoUri def o
   ∧ connector.WithNatsUrl (getEnvOrDefault environ env def) o
     = connector.WithNatsUrl def o
   ∧ connector.WithServerAddr (getEnvOrDefault environ env def) o
     = connector.WithServerAddr def o)
  ∧ (environ !! env = Some EmptyString →
     connector.WithMongoUri (getEnvOrDefault environ env def) o = (None, o)
     ∧ connector.WithNatsUrl (getEnvOrDefault environ env def) o = (None, o)
     ∧ connector.WithServerAddr (getEnvOrDefault environ env def) o
       = (None, o))
  ∧ (∀ val, environ !! env = Some val → val ≠ EmptyString →
     connector.WithMongoUri (getEnvOrDefault environ env def) o
     = (None, connector.set_mongoUri val o)
     ∧ connector.WithNatsUrl (getEnvOrDefault environ env def) o
       = (None, connector.set_natsUrl val o)
     ∧ connector.WithServerAddr (getEnvOrDefault environ env def) o
       = (None, connector.set_serverAddr val o)).
Proof.
  unfold getEnvOrDefault. split; [| split].
  - by intros ->.
  - by intros ->.
  - intros val -> Hval.
    unfold connector.WithMongoUri, connector.WithNatsUrl,
      connector.WithServerAddr, nonempty.
    by rewrite bool_decide_eq_false_2.
Qed.

(** X17: the collection [main] configures from one entry of the
    configuration.  When the option succeeds it appends one collection
    with the names of the entry; the images flag is set exactly when the
    entry says true; the collection is capped exactly when the entry
    says capped and also gives a size, a capped entry without a size
    being left uncapped without an error; an empty tokens database,
    tokens collection or stream name gives the default. *)
Theorem collection_opt_result (coll : config_Collection)
    (o o' : connector.Options) :
  collection_opt coll o = (None, o') →
  ∃ c, connector.collections o' = connector.collections o ++ [c]
       ∧ connector.dbName c = DbName coll
       ∧ connector.collName c = CollName coll
       ∧ (connector.changeStreamPreAndPostImages c = true
          ↔ ChangeStreamPreAndPostImages coll = Some true)
       ∧ (connector.tokensCollCapped c = true
          ↔ TokensCollCapped coll = Some true
            ∧ is_Some (TokensCollSizeInBytes coll))
       ∧ (connector.tokensCollCapped c = true →
          TokensCollSizeInBytes coll = Some (connector.tokensCollSizeInBytes c)
          ∧ (0 < connector.tokensCollSizeInBytes c)%Z)
       ∧ connector.tokensDbName c
         = (if bool_decide (TokensDbName coll = EmptyString)
            then "resume-tokens" else TokensDbName coll)
       ∧ connector.tokensCollName c
         = (if bool_decide (TokensCollName coll = EmptyString)
            then CollName coll else TokensCollName coll)
       ∧ connector.streamName c
         = (if bool_decide (StreamName coll = EmptyString)
            then ToUpper (CollName coll) else StreamName coll).
Proof.
  unfold collection_opt, connector.WithCollection, collOpts.
  case_bool_decide as Hdb; [done |]. case_bool_decide as Hcoll; [done |].
  unfold connector.WithTokensDbName, connector.WithTokensCollName,
    connector.WithStreamName, nonempty.
  destruct (ChangeStreamPreAndPostImages coll) as [[] |];
    destruct (TokensCollCapped coll) as [[] |];
    destruct (TokensCollSizeInBytes coll) as [size |]; cbn;
    repeat case_bool_decide; cbn;
    unfold connector.WithTokensCollCapped;
    try (destruct (size <=? 0)%Z eqn:Hsize; [done |];
         apply Z.leb_gt in Hsize); cbn;
    (destruct (EqualFold _ _ && EqualFold _ _); [done |]);
    intros [= <-]; eexists; (split; [reflexivity |]); cbn;
    repeat split; try done; try (by intros [? ?]); try (by intros [[=] ?]);
    try (by intros [? [? [=]]]); eauto.
Qed.

(** X18: the authentication options [getNatsOptions] builds.  A
    credentials file and a token each give their option when they are
    not empty; the user and the password give one only when both are
    not empty; nothing else is built, and an empty configuration gives
    no option. *)
Theorem getNatsOptions_spec (cfg : config_Nats) (opt : nats_Option) :
  opt ∈ getNatsOptions cfg
  ↔ (opt = nats_UserCredentials (Credentials cfg)
     ∧ Credentials cfg ≠ EmptyString)
    ∨ (opt = nats_UserInfo (User cfg) (Password cfg)
       ∧ User cfg ≠ EmptyString ∧ Password cfg ≠ EmptyString)
    ∨ (opt = nats_Token (Token cfg) ∧ Token cfg ≠ EmptyString).
Proof.
  unfold getNatsOptions, nonempty.
  repeat case_bool_decide; cbn;
    rewrite ?elem_of_cons, ?elem_of_nil; intuition (subst; auto; congruence).
Qed.

(** X19: the level of the logger [getLogger] builds is info for every
    string that is not one of debug, warn, error, fatal, panic written
    exactly so, in lower case. *)
Theorem zapLevel_info (level : string) :
  zapLevel level = InfoLevel
  ↔ level ∉ ["debug"; "warn"; "error"; "fatal"; "panic"].
Proof.
  split.
  - intros Hz Hin.
    repeat (apply elem_of_cons in Hin as [-> | Hin];
            [vm_compute in Hz; discriminate Hz |]).
    by apply elem_of_nil in Hin.
  - intros Hn. unfold zapLevel.
    repeat case_bool_decide; try done; exfalso; apply Hn; subst;
      repeat first [by left | right].
Qed.

(** X20: [getMongoOptions] returns no options, also when an
    authentication mechanism is configured: the options it fills in
    belong to a variable of the inner block. *)
Theorem getMongoOptions_nil (cfg : config_Mongo) :
  getMongoOptions cfg = None.
Proof. reflexivity. Qed.

End main_extras.

(** ** The further properties at concrete inputs *)

Section extras_examples.
Import connector connector_New.
#[local] Existing Instance ascii_GoStrings.
#[local] Existing Instance dottedBus.jetstream.
#[local] Existing Instance samples.publisher.

Lemma WithCollection_atomic_witness :
  (WithCollection "test-db" "test-coll" [WithTokensCollCapped 0]
     getDefaultOptions).2 = getDefaultOptions
  ∧ ∃ c, collections (WithCollection "connector-db" "coll1" []
                        getDefaultOptions).2 = [c].
Proof.
  split.
  - apply (WithCollection_atomic "test-db" "test-coll"
             [WithTokensCollCapped 0] getDefaultOptions).
    vm_compute. eexists. reflexivity.
  - destruct (proj2 (WithCollection_atomic "connector-db" "coll1" []
                       getDefaultOptions)) as (c & _ & Hc & _).
    + vm_compute. reflexivity.
    + exists c. exact Hc.
Defined.

Lemma WithCollection_errors_witness :
  (WithCollection "db" "coll"
     [WithTokensCollCapped 2048; WithTokensCollCapped (-1)]
     getDefaultOptions).1 = Some ErrInvalidCollSizeInBytes.
Proof.
  destruct (WithCollection_errors "db" "coll"
              [WithTokensCollCapped 2048; WithTokensCollCapped (-1)]
              getDefaultOptions) as (_ & _ & Hsize).
  apply Hsize.
  - discriminate.
  - discriminate.
  - repeat constructor.
  - exists (-1)%Z. split; [right; left | lia].
Defined.

Lemma apply_opts_flags_witness :
  changeStreamPreAndPostImages
    (apply_opts [WithStreamName "s"; WithChangeStreamPreAndPostImages]
       (new_collection "db" "coll")).2 = true.
Proof.
  apply (apply_opts_flags
           [WithStreamName "s"; WithChangeStreamPreAndPostImages] "db" "coll").
  - repeat constructor.
  - vm_compute. reflexivity.
  - right. left.
Defined.

Lemma WithCollection_all_options_witness :
  WithCollection "connector-db" "coll1"
    [ WithChangeStreamPreAndPostImages; WithTokensDbName "tokens-db";
      WithTokensCollName "coll1-tokens"; WithTokensCollCapped 2048;
      WithStreamName "coll1-stream" ] getDefaultOptions
  = (None,
     set_collections
       [{| dbName := "connector-db"; collName := "coll1";
           changeStreamPreAndPostImages := true;
           tokensDbName := "tokens-db"; tokensCollName := "coll1-tokens";
           tokensCollCapped := true; tokensCollSizeInBytes := 2048;
           streamName := "coll1-stream" |}] getDefaultOptions).
Proof.
  assert (Hfold : EqualFold "connector-db" "tokens-db"
                  && EqualFold "coll1" "coll1-tokens" = false)
    by (vm_compute; reflexivity).
  refine (WithCollection_all_options "connector-db" "coll1" "tokens-db"
            "coll1-tokens" "coll1-stream" 2048 getDefaultOptions
            _ _ _ _ _ _ Hfold); first [discriminate | lia].
Defined.

Lemma scalar_options_commute_witness :
  WithServerAddr ":18080" (WithMongoUri "localhost:27017" getDefaultOptions).2
  = WithMongoUri "localhost:27017" (WithServerAddr ":18080" getDefaultOptions).2.
Proof.
  apply (scalar_options_commute f_mongoUri f_serverAddr).
  - constructor.
  - constructor.
  - discriminate.
Defined.

Lemma New_collections_valid_witness :
  ∃ c m n dials,
    New samples.NewMongo samples.NewNats samples.named samples.options
    = (inr (c, m, n), dials)
    ∧ Forall valid_collection (collections (options c)).
Proof.
  assert (Hopts : Forall package_option samples.options)
    by (repeat constructor).
  destruct (New samples.NewMongo samples.NewNats samples.named samples.options)
    as [[e | [[c m] n]] dials] eqn:HN.
  - vm_compute in HN. discriminate HN.
  - exists c, m, n, dials. split; [reflexivity |].
    exact (New_collections_valid samples.NewMongo samples.NewNats samples.named
             samples.options c m n dials Hopts HN).
Defined.

Lemma New_connector_witness :
  ∃ c m n dials,
    New samples.NewMongo samples.NewNats samples.named samples.options
    = (inr (c, m, n), dials)
    ∧ stop (options c) = Some (signal_NotifyContext context_Background)
    ∧ server.addr (server c) = "127.0.0.1:18080".
Proof.
  destruct (New samples.NewMongo samples.NewNats samples.named samples.options)
    as [[e | [[c m] n]] dials] eqn:HN.
  - vm_compute in HN. discriminate HN.
  - exists c, m, n, dials. split; [reflexivity |].
    destruct (New_connector samples.NewMongo samples.NewNats samples.named
                samples.options
                (apply_options samples.options getDefaultOptions).2
                c m n dials) as (_ & Hstop & _ & _ & Haddr & _).
    + vm_compute. reflexivity.
    + exact HN.
    + split; [exact Hstop | exact Haddr].
Defined.



Lemma NewDefaultClient_handlers_witness :
  ∃ c, nats.NewDefaultClient dottedBus.Connect
         [nats.WithNatsOptions [nats.DisconnectErrHandler samples.quiet]]
       = inr c
       ∧ nats.DisconnectErrHandler <$> nats.DisconnectedErrCB (nats.opts c)
         = nats.extraOpts !! 1%nat.
Proof.
  destruct (nats.NewDefaultClient dottedBus.Connect
              [nats.WithNatsOptions [nats.DisconnectErrHandler samples.quiet]])
    as [e | c] eqn:HN.
  - vm_compute in HN. discriminate HN.
  - exists c. split; [reflexivity |].
    exact (proj1 (NewDefaultClient_handlers dottedBus.Connect _ c HN)).
Defined.

Lemma NewDefaultClient_error_witness :
  ∃ err, nats.NewDefaultClient samples.Connect_down [] = inl err
         ∧ err = errorString
                   "could not connect to nats: nats: no servers available for connection".
Proof.
  destruct (nats.NewDefaultClient samples.Connect_down []) as [err | c] eqn:HN.
  - exists err. split; [reflexivity |].
    destruct (NewDefaultClient_error samples.Connect_down [] err HN)
      as (o & cause & HC & -> & _).
    injection HC as <-. reflexivity.
  - vm_compute in HN. discriminate HN.
Defined.

Lemma Close_then_Monitor_witness :
  nats.DefaultClient_Monitor context_Background samples.client = Some None
  ∧ ∃ c', DefaultClient.Close samples.client = Some (None, c')
          ∧ nats.DefaultClient_Monitor context_Background c'
            = Some (Some ErrClientDisconnected).
Proof.
  destruct (Close_then_Monitor context_Background samples.client
              {| nats.ConnectedUrlRedacted := "nats://127.0.0.1:4222";
                 nats.IsClosed := false |} eq_refl)
    as (Hm & c' & Hc & Hm' & _).
  split; [exact Hm |]. exists c'. split; [exact Hc | exact Hm'].
Defined.

Lemma AddStream_effects_witness :
  ∃ c', nats.DefaultClient_AddStream context_Background
          {| nats.StreamName := "COLL1" |} samples.client = Some (None, c')
        ∧ nats.logger c'
          = [{| zap.level := zap.DebugLevel; zap.msg := "added nats stream";
                zap.fields := [("streamName", "COLL1")] |}]
        ∧ nats.conn c' = nats.conn samples.client.
Proof.
  assert (∃ c', nats.DefaultClient_AddStream context_Background
                  {| nats.StreamName := "COLL1" |} samples.client
                = Some (None, c')) as [c' Hrun] by (eexists; reflexivity).
  exists c'. split; [exact Hrun |].
  destruct (AddStream_effects context_Background
              {| nats.StreamName := "COLL1" |} samples.client c' None Hrun)
    as (_ & _ & Hconn & j & Hj & _ & Hlog).
  split; [| exact Hconn].
  cbn in Hj. injection Hj as <-. exact Hlog.
Defined.

Lemma Publish_request_witness :
  ∃ res c',
    DefaultClient.Publish context_Background
      {| DefaultClient.Subj := "COLL1.insert";
         DefaultClient.MsgId := "8264";
         DefaultClient.Data := [123%N; 125%N] |} samples.client
    = Some (res, c')
    ∧ nats.js c' = nats.js samples.client.
Proof.
  destruct (Publish_request context_Background
              {| DefaultClient.Subj := "COLL1.insert";
                 DefaultClient.MsgId := "8264";
                 DefaultClient.Data := [123%N; 125%N] |} samples.client
              {| nats.server_state := []; nats.requested := [] |} eq_refl)
    as (res & c' & j' & Hp & Hj & Hst & Hreq & _).
  exists res, c'. split; [exact Hp |].
  rewrite Hj. destruct j' as [st req]. cbn in Hst, Hreq. by subst.
Defined.

(** The error of a refused message shows the payload as [fmt] prints a
    byte slice. *)
Example Publish_refused :
  fst <$> DefaultClient.Publish context_Background
            {| DefaultClient.Subj := EmptyString;
               DefaultClient.MsgId := "8264";
               DefaultClient.Data := [123%N; 125%N] |} samples.client
  = Some (Some (errorString
       "could not publish message [123 125] to nats stream : nats: invalid subject")).
Proof. vm_compute. reflexivity. Qed.

Lemma New_addr_witness :
  server.addr (server.New ([server.WithAddr "127.0.0.1:8085";
                            server.WithNamedMonitors
                              (Some [server.cmpUp; server.cmpDown])]
                           ++ [server.WithAddr EmptyString]))
  = "127.0.0.1:8085".
Proof.
  assert (Hopts : Forall server_options.package_option
                    [server.WithAddr "127.0.0.1:8085";
                     server.WithNamedMonitors
                       (Some [server.cmpUp; server.cmpDown])])
    by (repeat constructor).
  exact (proj2 (proj2 (New_addr _ EmptyString Hopts))).
Defined.

Lemma getEnvOrDefault_option_witness :
  WithMongoUri
    (main.getEnvOrDefault {["MONGO_URI" := EmptyString]} "MONGO_URI"
       "mongodb://localhost:27017") getDefaultOptions
  = (None, getDefaultOptions).
Proof.
  destruct (getEnvOrDefault_option {["MONGO_URI" := EmptyString]} "MONGO_URI"
              "mongodb://localhost:27017" getDefaultOptions)
    as (_ & Hempty & _).
  assert (Hset : ({["MONGO_URI" := EmptyString]} : gmap string string)
                 !! "MONGO_URI" = Some EmptyString)
    by (vm_compute; reflexivity).
  exact (proj1 (Hempty Hset)).
Defined.

Lemma collection_opt_result_witness :
  ∃ c, collections (main.collection_opt samples.capped_without_size
                      getDefaultOptions).2 = [c]
       ∧ tokensCollCapped c = false.
Proof.
  destruct (collection_opt_result samples.capped_without_size
              getDefaultOptions
              (main.collection_opt samples.capped_without_size
                 getDefaultOptions).2)
    as (c & Hc & _ & _ & _ & Hcap & _).
  - vm_compute. reflexivity.
  - exists c. split; [exact Hc |].
    destruct (tokensCollCapped c); [| reflexivity].
    destruct (proj1 Hcap eq_refl) as [_ [x Hx]]. discriminate Hx.
Defined.

End extras_examples.
